(** * MCP client wrapper: a shallow embedding of [src/client.ts]

    The class [MCPClient] is a thin facade over the protocol SDK's [Client]
    object.  The SDK is an external collaborator: it is taken as an interface
    ([SdkClient]) whose methods either return a response or throw.  The
    wrapper's own code (the constructor, the connection flag, the guards, the
    translation of responses) is embedded as written, as computations over an
    explicit world that holds the wrapper object, the trace of SDK calls and
    the console. *)

From Stdlib Require Import String List Bool ZArith.
From stdpp Require Import base option list.
Import ListNotations.
Local Open Scope string_scope.

(** ** JavaScript values the wrapper touches *)

(** Free-form payloads ([Record<string, unknown>] and the like).  The client
    never inspects them; objects are association lists because a JS object
    keeps its insertion order. *)
#[warnings="-register-all"] Inductive JSON : Type :=
| JNull
| JBool (b : bool)
| JNumber (n : Z)
| JString (s : string)
| JArray (items : list JSON)
| JObject (fields : list (string * JSON)).

(** A thrown [Error] object. *)
Record JsError : Type := { err_name : string; err_message : string }.

(** [new Error(message)] *)
Definition new_Error (message : string) : JsError :=
  {| err_name := "Error"; err_message := message |}.

(** [Error.prototype.toString], which is what a template literal applies
    to a caught error. *)
Definition toString (e : JsError) : string :=
  if String.eqb (err_name e) "" then err_message e
  else if String.eqb (err_message e) "" then err_name e
  else err_name e ++ ": " ++ err_message e.

(** [new TypeError(message)] *)
Definition new_TypeError (message : string) : JsError :=
  {| err_name := "TypeError"; err_message := message |}.

(** An optional key of an object literal: the key is missing, or it is there
    and holds [undefined] or a value.  Reading gives [undefined] in the
    first two cases alike; an object spread tells them apart. *)
Inductive Property (A : Type) : Type :=
| Missing
| Undefined
| Holds (a : A).
Arguments Missing {A}.
Arguments Undefined {A}.
Arguments Holds {A} a.

(** [object.key] *)
Definition read {A : Type} (p : Property A) : option A :=
  match p with
  | Holds a => Some a
  | Missing | Undefined => None
  end.
Coercion read : Property >-> option.

(** The key in [{key: preset, ...object}]: a key of [object] that is there
    replaces the preset one, with whatever it holds. *)
Definition spread_over {A : Type} (preset : A) (p : Property A) : Property A :=
  match p with
  | Missing => Holds preset
  | Undefined => Undefined
  | Holds a => Holds a
  end.

(** Truthiness of an optional string: [undefined] and [''] are falsy. *)
Definition truthy_string (s : option string) : bool :=
  match s with
  | Some v => negb (String.eqb v "")
  | None => false
  end.

(** Truthiness of an optional boolean. *)
Definition truthy_bool (b : option bool) : bool :=
  match b with
  | Some v => v
  | None => false
  end.

(** Truthiness of an optional free-form value ([!!x]). *)
Definition truthy_json (v : option JSON) : bool :=
  match v with
  | None | Some JNull => false
  | Some (JBool b) => b
  | Some (JNumber n) => negb (Z.eqb n 0)
  | Some (JString s) => negb (String.eqb s "")
  | Some (JArray _) | Some (JObject _) => true
  end.

(** [Array.prototype.join] on an array of strings. *)
Fixpoint join (sep : string) (l : list string) : string :=
  match l with
  | [] => ""
  | [x] => x
  | x :: rest => x ++ sep ++ join sep rest
  end.

(** The result of running a piece of code: it returns or it throws. *)
Inductive Outcome (A : Type) : Type :=
| Returned (a : A)
| Threw (e : JsError).
Arguments Returned {A} a.
Arguments Threw {A} e.

(** [Array.prototype.map] with a callback that may throw: the first element
    on which it throws ends the whole call. *)
Fixpoint map_throwing {A B : Type} (f : A -> Outcome B) (l : list A)
  : Outcome (list B) :=
  match l with
  | [] => Returned []
  | x :: rest =>
      match f x with
      | Threw e => Threw e
      | Returned y =>
          match map_throwing f rest with
          | Threw e => Threw e
          | Returned ys => Returned (y :: ys)
          end
      end
  end.

(** ** [types.ts] *)

Inductive TransportType : Type := stdio | sse.

Module MCPClientConfig.
(** [command], [args], [env] and [sseUrl] are given by what reading them
    yields, a missing key and an [undefined] one being alike wherever the
    client reads them; [timeout] and [debug] have presets in the constructor,
    where the two differ. *)
Record t : Type := {
  command : option string;
  args : option (list string);
  env : option (list (string * string));
  sseUrl : option string;
  timeout : Property Z;
  debug : Property bool
}.
End MCPClientConfig.

Module InputSchema.
(** [MCPTool['inputSchema']]; [rest] holds whatever other keys the schema
    object carries at run time (the cast in [listTools] is static). *)
Record t : Type := {
  type_ : string;
  properties : option (list (string * JSON));
  required : option (list string);
  rest : list (string * JSON)
}.
End InputSchema.

Module MCPTool.
Record t : Type := {
  name : string;
  description : option string;
  inputSchema : InputSchema.t
}.
End MCPTool.

Module MCPResource.
Record t : Type := {
  uri : string;
  name : string;
  description : option string;
  mimeType : option string
}.
End MCPResource.

Module PromptArgument.
Record t : Type := {
  name : string;
  description : option string;
  required : option bool
}.
End PromptArgument.

Module MCPPrompt.
Record t : Type := {
  name : string;
  description : option string;
  arguments : option (list PromptArgument.t)
}.
End MCPPrompt.

Module ContentBlock.
(** An element of [ToolCallResult['content']].  [rest] holds the other keys
    of the run-time object (for instance an embedded [resource]). *)
Record t : Type := {
  type_ : string;
  text : option string;
  data : option string;
  mimeType : option string;
  rest : list (string * JSON)
}.
End ContentBlock.

Module ToolCallResult.
Record t : Type := {
  content : list ContentBlock.t;
  isError : option bool
}.
End ToolCallResult.

Module ServerCapabilities.
Record t : Type := {
  tools : option bool;
  resources : option bool;
  prompts : option bool
}.
End ServerCapabilities.

(** ** What the SDK hands to the wrapper *)

Inductive URL : Type := MkURL (href : string).

Inductive Transport : Type :=
| StdioClientTransport (command : option string) (args : option (list string))
    (env : option (list (string * string)))
| SSEClientTransport (url : URL).

Module Sdk.
(** The SDK's response records, with the fields [client.ts] reads. *)
Record Tool : Type := {
  tool_name : string;
  tool_description : option string;
  tool_inputSchema : InputSchema.t;
  tool_rest : list (string * JSON)
}.
Record ListToolsResult : Type := { tools : list Tool }.

Record CallToolResult : Type := {
  content : list ContentBlock.t;
  isError : option bool;
  call_rest : list (string * JSON)
}.

Record Resource : Type := {
  resource_uri : string;
  resource_name : string;
  resource_description : option string;
  resource_mimeType : option string;
  resource_rest : list (string * JSON)
}.
Record ListResourcesResult : Type := { resources : list Resource }.

(** A text or a blob resource content: the [text] key is there or not. *)
Record ResourceContents : Type := {
  contents_uri : string;
  contents_mimeType : option string;
  contents_text : option string;
  contents_blob : option string
}.
Record ReadResourceResult : Type := { contents : list ResourceContents }.

Record Prompt : Type := {
  prompt_name : string;
  prompt_description : option string;
  prompt_arguments : option (list PromptArgument.t);
  prompt_rest : list (string * JSON)
}.
Record ListPromptsResult : Type := { prompts : list Prompt }.

(** [msg.content]: the single content block the protocol puts in a prompt
    message, or one of the two shapes [getPrompt] is written for, a string
    or an array of content blocks. *)
Inductive MessageContent : Type :=
| ContentObject (block : ContentBlock.t)
| ContentString (s : string)
| ContentBlocks (blocks : list ContentBlock.t).
Record PromptMessage : Type := {
  role : string;
  msg_content : MessageContent
}.
Record GetPromptResult : Type := {
  description : option string;
  messages : list PromptMessage
}.

(** The object returned by [getServerCapabilities()]. *)
Record Capabilities : Type := {
  cap_tools : option JSON;
  cap_resources : option JSON;
  cap_prompts : option JSON
}.
End Sdk.

(** A call made on the SDK client object, as recorded in the trace. *)
Inductive SdkCall : Type :=
| Call_connect (t : Transport)
| Call_close
| Call_getServerCapabilities
| Call_listTools
| Call_callTool (name : string) (arguments : list (string * JSON))
| Call_listResources
| Call_readResource (uri : string)
| Call_listPrompts
| Call_getPrompt (name : string) (arguments : list (string * string)).

(** The SDK [Client] (and the [URL] constructor of the platform) as an
    interface over the SDK's own state [S]. *)
Class SdkClient (S : Type) : Type := {
  new_Client : string -> string -> S;
  new_URL : string -> Outcome URL;
  sdk_connect : Transport -> S -> Outcome unit * S;
  sdk_close : S -> Outcome unit * S;
  sdk_getServerCapabilities : S -> option Sdk.Capabilities;
  sdk_listTools : S -> Outcome Sdk.ListToolsResult * S;
  sdk_callTool :
    string -> list (string * JSON) -> S -> Outcome Sdk.CallToolResult * S;
  sdk_listResources : S -> Outcome Sdk.ListResourcesResult * S;
  sdk_readResource : string -> S -> Outcome Sdk.ReadResourceResult * S;
  sdk_listPrompts : S -> Outcome Sdk.ListPromptsResult * S;
  sdk_getPrompt :
    string -> list (string * string) -> S -> Outcome Sdk.GetPromptResult * S
}.

(** The message returned for a prompt by [getPrompt]. *)
Module PromptMessage.
Record t : Type := { role : string; content : string }.
End PromptMessage.

Module PromptResult.
Record t : Type := {
  description : option string;
  messages : list PromptMessage.t
}.
End PromptResult.

(** A line written by [console.log]: the text and the extra arguments. *)
Record ConsoleLine : Type := {
  line_text : string;
  line_args : list JSON
}.

(** ** [client.ts] *)

Section Client.
Context {S : Type} `{SdkClient S}.

(** The fields of the [MCPClient] object. *)
Record MCPClient : Type := {
  client : S;
  transport : option Transport;
  config : MCPClientConfig.t;
  connected : bool;
  transportType : TransportType
}.

Definition set_transport (t : option Transport) (this : MCPClient) : MCPClient :=
  {| client := client this; transport := t; config := config this;
     connected := connected this; transportType := transportType this |}.

Definition set_connected (b : bool) (this : MCPClient) : MCPClient :=
  {| client := client this; transport := transport this; config := config this;
     connected := b; transportType := transportType this |}.

Definition set_client (s : S) (this : MCPClient) : MCPClient :=
  {| client := s; transport := transport this; config := config this;
     connected := connected this; transportType := transportType this |}.

(** The object, the SDK calls made so far (latest last) and the console. *)
Record World : Type := {
  self : MCPClient;
  sdk_calls : list SdkCall;
  console : list ConsoleLine
}.

(** An [async] method body: it runs on a world and returns or throws. *)
Definition Async (A : Type) : Type := World -> Outcome A * World.

#[global] Instance Async_ret : MRet Async :=
  fun A a w => (Returned a, w).

#[global] Instance Async_bind : MBind Async :=
  fun A B k m w =>
    match m w with
    | (Returned a, w') => k a w'
    | (Threw e, w') => (Threw e, w')
    end.

Definition throw {A : Type} (e : JsError) : Async A :=
  fun w => (Threw e, w).

(** [try { body } catch (error) { handler }]: what the body did to the
    world before it threw stays done. *)
Definition try_catch {A : Type} (body : Async A) (handler : JsError -> Async A)
  : Async A :=
  fun w =>
    match body w with
    | (Returned a, w') => (Returned a, w')
    | (Threw e, w') => handler e w'
    end.

Definition lift {A : Type} (o : Outcome A) : Async A :=
  fun w => (o, w).

Definition read_this : Async MCPClient :=
  fun w => (Returned (self w), w).

Definition write_this (f : MCPClient -> MCPClient) : Async unit :=
  fun w =>
    (Returned tt,
     {| self := f (self w); sdk_calls := sdk_calls w; console := console w |}).

Definition console_log (text : string) (extra : list JSON) : Async unit :=
  fun w =>
    (Returned tt,
     {| self := self w; sdk_calls := sdk_calls w;
        console := console w ++ [ {| line_text := text; line_args := extra |} ] |}).

(** [await this.client.m(...)]: the call is recorded, the SDK object moves
    to its next state, and the call returns or throws. *)
Definition sdk_call {A : Type} (c : SdkCall) (m : S -> Outcome A * S) : Async A :=
  fun w =>
    let '(r, s') := m (client (self w)) in
    (r,
     {| self := set_client s' (self w); sdk_calls := sdk_calls w ++ [c];
        console := console w |}).

Definition when (b : bool) (m : Async unit) : Async unit :=
  if b then m else mret tt.

(** [constructor(config)] *)
Definition constructor (cfg : MCPClientConfig.t) : Outcome MCPClient :=
  let this_config :=
    {| MCPClientConfig.command := MCPClientConfig.command cfg;
       MCPClientConfig.args := MCPClientConfig.args cfg;
       MCPClientConfig.env := MCPClientConfig.env cfg;
       MCPClientConfig.sseUrl := MCPClientConfig.sseUrl cfg;
       MCPClientConfig.timeout :=
         spread_over 30000%Z (MCPClientConfig.timeout cfg);
       MCPClientConfig.debug :=
         spread_over false (MCPClientConfig.debug cfg) |} in
  let build (tt : TransportType) :=
    Returned
      {| client := new_Client "mcp-client-example" "1.0.0";
         transport := None;
         config := this_config;
         connected := false;
         transportType := tt |} in
  if truthy_string (MCPClientConfig.sseUrl cfg) then build sse
  else if truthy_string (MCPClientConfig.command cfg) then build stdio
  else Threw (new_Error "Must provide either command (stdio) or sseUrl (SSE)").

(** [isConnected()] *)
Definition isConnected (w : World) : bool := connected (self w).

(** [getTransportType()] *)
Definition getTransportType (w : World) : TransportType :=
  transportType (self w).

(** [ensureConnected()] *)
Definition ensureConnected : Async unit :=
  this ← read_this;
  if negb (connected this)
  then throw (new_Error "Not connected to MCP server. Call connect() first.")
  else mret tt.

Definition transport_name (t : TransportType) : string :=
  match t with stdio => "stdio" | sse => "sse" end.

(** The argument of [new URL(this.config.sseUrl!)] after string conversion. *)
Definition url_argument (u : option string) : string :=
  default "undefined" u.

(** [connect()] *)
Definition connect : Async ServerCapabilities.t :=
  this ← read_this;
  if connected this then throw (new_Error "Already connected")
  else
    try_catch
      (t ← match transportType this with
           | stdio =>
               mret (StdioClientTransport
                       (MCPClientConfig.command (config this))
                       (MCPClientConfig.args (config this))
                       (MCPClientConfig.env (config this)))
           | sse =>
               u ← lift (new_URL (url_argument (MCPClientConfig.sseUrl (config this))));
               mret (SSEClientTransport u)
           end;
       write_this (set_transport (Some t));;
       sdk_call (Call_connect t) (sdk_connect t);;
       write_this (set_connected true);;
       when (truthy_bool (MCPClientConfig.debug (config this)))
         (console_log
            ("[MCP Client] Connected via " ++ transport_name (transportType this))
            []);;
       capabilities ← sdk_call Call_getServerCapabilities
                        (fun s => (Returned (sdk_getServerCapabilities s), s));
       mret {| ServerCapabilities.tools :=
                 Some (truthy_json (capabilities ≫= Sdk.cap_tools));
               ServerCapabilities.resources :=
                 Some (truthy_json (capabilities ≫= Sdk.cap_resources));
               ServerCapabilities.prompts :=
                 Some (truthy_json (capabilities ≫= Sdk.cap_prompts)) |})
      (fun error =>
         write_this (set_connected false);;
         throw (new_Error ("Failed to connect: " ++ toString error))).

(** [disconnect()] *)
Definition disconnect : Async unit :=
  this ← read_this;
  if negb (connected this) then mret tt
  else
    try_catch
      (sdk_call Call_close sdk_close;;
       write_this (set_connected false);;
       when (truthy_bool (MCPClientConfig.debug (config this)))
         (console_log "[MCP Client] Disconnected" []))
      (fun error =>
         throw (new_Error ("Failed to disconnect: " ++ toString error))).


(** [listTools()] *)
Definition listTools : Async (list MCPTool.t) :=
  ensureConnected;;
  response ← sdk_call Call_listTools sdk_listTools;
  mret (map (fun tool =>
               {| MCPTool.name := Sdk.tool_name tool;
                  MCPTool.description := Sdk.tool_description tool;
                  MCPTool.inputSchema := Sdk.tool_inputSchema tool |})
            (Sdk.tools response)).

(** [callTool(name, args = {})] *)
Definition callTool (name : string) (args : list (string * JSON))
  : Async ToolCallResult.t :=
  ensureConnected;;
  this ← read_this;
  when (truthy_bool (MCPClientConfig.debug (config this)))
    (console_log ("[MCP Client] Calling tool: " ++ name) [JObject args]);;
  response ← sdk_call (Call_callTool name args) (sdk_callTool name args);
  mret {| ToolCallResult.content := Sdk.content response;
          ToolCallResult.isError := Sdk.isError response |}.

(** [listResources()] *)
Definition listResources : Async (list MCPResource.t) :=
  ensureConnected;;
  response ← sdk_call Call_listResources sdk_listResources;
  mret (map (fun resource =>
               {| MCPResource.uri := Sdk.resource_uri resource;
                  MCPResource.name := Sdk.resource_name resource;
                  MCPResource.description := Sdk.resource_description resource;
                  MCPResource.mimeType := Sdk.resource_mimeType resource |})
            (Sdk.resources response)).

(** [readResource(uri)]: [content] is [response.contents[0]], which is
    [undefined] on an empty array; ['text' in content] asks for the key. *)
Definition readResource (uri : string) : Async string :=
  ensureConnected;;
  response ← sdk_call (Call_readResource uri) (sdk_readResource uri);
  let content := head (Sdk.contents response) in
  match content ≫= Sdk.contents_text with
  | Some text => mret text
  | None => throw (new_Error "Resource content not available as text")
  end.

(** [listPrompts()] *)
Definition listPrompts : Async (list MCPPrompt.t) :=
  ensureConnected;;
  response ← sdk_call Call_listPrompts sdk_listPrompts;
  mret (map (fun prompt =>
               {| MCPPrompt.name := Sdk.prompt_name prompt;
                  MCPPrompt.description := Sdk.prompt_description prompt;
                  MCPPrompt.arguments := Sdk.prompt_arguments prompt |})
            (Sdk.prompts response)).

(** The [content] of a returned message: [typeof msg.content === 'string']
    picks the string; anything else is sent [.map], which an array of blocks
    has and a single block object has not, so that the call of the missing
    method throws. *)
Definition flatten_content (c : Sdk.MessageContent) : Outcome string :=
  match c with
  | Sdk.ContentString s => Returned s
  | Sdk.ContentBlocks blocks =>
      Returned (join "" (map (fun c => default "" (ContentBlock.text c)) blocks))
  | Sdk.ContentObject _ =>
      Threw (new_TypeError "msg.content.map is not a function")
  end.

(** [getPrompt(name, args = {})] *)
Definition getPrompt (name : string) (args : list (string * string))
  : Async PromptResult.t :=
  ensureConnected;;
  response ← sdk_call (Call_getPrompt name args) (sdk_getPrompt name args);
  messages ← lift (map_throwing
                     (fun msg =>
                        match flatten_content (Sdk.msg_content msg) with
                        | Returned content =>
                            Returned {| PromptMessage.role := Sdk.role msg;
                                        PromptMessage.content := content |}
                        | Threw e => Threw e
                        end)
                     (Sdk.messages response));
  mret {| PromptResult.description := Sdk.description response;
          PromptResult.messages := messages |}.

End Client.

Arguments MCPClient S : clear implicits.
Arguments World S : clear implicits.

(** ** The failures of the wrapper, by the names the specification uses

    [client.ts] throws plain [Error] objects; each kind of failure is told by
    its message. *)

(** Thrown by [ensureConnected]. *)
Definition NotConnectedError : JsError :=
  new_Error "Not connected to MCP server. Call connect() first.".

(** Thrown by [connect] on a connected client. *)
Definition AlreadyConnectedError : JsError :=
  new_Error "Already connected".

(** Thrown by the constructor when no transport can be resolved. *)
Definition ConfigurationError : JsError :=
  new_Error "Must provide either command (stdio) or sseUrl (SSE)".

(** Thrown by the [catch] of [connect], around the error it caught. *)
Definition ConnectionError (cause : JsError) : JsError :=
  new_Error ("Failed to connect: " ++ toString cause).

(** Thrown by the [catch] of [disconnect], around the error it caught. *)
Definition DisconnectError (cause : JsError) : JsError :=
  new_Error ("Failed to disconnect: " ++ toString cause).

(** Thrown by [readResource]. *)
Definition UnsupportedContentError : JsError :=
  new_Error "Resource content not available as text".

(** The transport type a construction resolved, when it succeeded. *)
Definition resolved {S : Type} (r : Outcome (MCPClient S)) : Outcome TransportType :=
  match r with
  | Returned c => Returned (transportType c)
  | Threw e => Threw e
  end.

(** An option of the config that holds a usable value: a non-empty string. *)
Definition provided (o : option string) : Prop :=
  exists v, o = Some v /\ v <> "".

(** The text [readResource] looks for: that of the first entry of
    [response.contents], when there is one and it has the [text] key. *)
Definition textual_representation (r : Sdk.ReadResourceResult) : option string :=
  head (Sdk.contents r) ≫= Sdk.contents_text.

(** The texts of the blocks that have a [text] key, in order. *)
Definition block_texts (blocks : list ContentBlock.t) : list string :=
  omap ContentBlock.text blocks.

(** ** A scripted SDK, to run the wrapper on concrete servers *)

Module Mock.
Record Server : Type := {
  connect_result : Outcome unit;
  (** the outcomes of the successive [close()] calls; it succeeds once the
      script is used up *)
  close_results : list (Outcome unit);
  capabilities : option Sdk.Capabilities;
  listTools_result : Outcome Sdk.ListToolsResult;
  callTool_result : Outcome Sdk.CallToolResult;
  listResources_result : Outcome Sdk.ListResourcesResult;
  readResource_result : Outcome Sdk.ReadResourceResult;
  listPrompts_result : Outcome Sdk.ListPromptsResult;
  getPrompt_result : Outcome Sdk.GetPromptResult
}.

Definition TypeError (message : string) : JsError :=
  {| err_name := "TypeError"; err_message := message |}.

Definition idle : Server := {|
  connect_result := Returned tt;
  close_results := [];
  capabilities := None;
  listTools_result := Returned {| Sdk.tools := [] |};
  callTool_result :=
    Returned {| Sdk.content := []; Sdk.isError := None; Sdk.call_rest := [] |};
  listResources_result := Returned {| Sdk.resources := [] |};
  readResource_result := Returned {| Sdk.contents := [] |};
  listPrompts_result := Returned {| Sdk.prompts := [] |};
  getPrompt_result := Returned {| Sdk.description := None; Sdk.messages := [] |}
|}.

Definition close (s : Server) : Outcome unit * Server :=
  match close_results s with
  | [] => (Returned tt, s)
  | r :: later =>
      (r,
       {| connect_result := connect_result s;
          close_results := later;
          capabilities := capabilities s;
          listTools_result := listTools_result s;
          callTool_result := callTool_result s;
          listResources_result := listResources_result s;
          readResource_result := readResource_result s;
          listPrompts_result := listPrompts_result s;
          getPrompt_result := getPrompt_result s |})
  end.

#[global] Instance sdk : SdkClient Server := {|
  new_Client := fun _ _ => idle;
  new_URL := fun u =>
    if String.prefix "http" u then Returned (MkURL u)
    else Threw (TypeError "Invalid URL");
  sdk_connect := fun _ s => (connect_result s, s);
  sdk_close := close;
  sdk_getServerCapabilities := capabilities;
  sdk_listTools := fun s => (listTools_result s, s);
  sdk_callTool := fun _ _ s => (callTool_result s, s);
  sdk_listResources := fun s => (listResources_result s, s);
  sdk_readResource := fun _ s => (readResource_result s, s);
  sdk_listPrompts := fun s => (listPrompts_result s, s);
  sdk_getPrompt := fun _ _ s => (getPrompt_result s, s)
|}.

Definition no_config : MCPClientConfig.t := {|
  MCPClientConfig.command := None;
  MCPClientConfig.args := None;
  MCPClientConfig.env := None;
  MCPClientConfig.sseUrl := None;
  MCPClientConfig.timeout := Missing;
  MCPClientConfig.debug := Missing
|}.

Definition with_command (c : string) (cfg : MCPClientConfig.t) : MCPClientConfig.t := {|
  MCPClientConfig.command := Some c;
  MCPClientConfig.args := MCPClientConfig.args cfg;
  MCPClientConfig.env := MCPClientConfig.env cfg;
  MCPClientConfig.sseUrl := MCPClientConfig.sseUrl cfg;
  MCPClientConfig.timeout := MCPClientConfig.timeout cfg;
  MCPClientConfig.debug := MCPClientConfig.debug cfg
|}.

Definition with_sseUrl (u : string) (cfg : MCPClientConfig.t) : MCPClientConfig.t := {|
  MCPClientConfig.command := MCPClientConfig.command cfg;
  MCPClientConfig.args := MCPClientConfig.args cfg;
  MCPClientConfig.env := MCPClientConfig.env cfg;
  MCPClientConfig.sseUrl := Some u;
  MCPClientConfig.timeout := MCPClientConfig.timeout cfg;
  MCPClientConfig.debug := MCPClientConfig.debug cfg
|}.

(** A world around a client object talking to server [s]. *)
Definition world (s : Server) (is_connected : bool) : World Server := {|
  self := {| client := s; transport := None;
             config := with_command "node" no_config;
             connected := is_connected; transportType := stdio |};
  sdk_calls := [];
  console := []
|}.
End Mock.

(** ** Concrete servers *)

Module Scenario.
Import Mock.

Definition boom : JsError := new_Error "broken pipe".

(** A server whose [close()] fails on the first two calls. *)
Definition close_fails_twice : Server := {|
  connect_result := Returned tt;
  close_results := [Threw boom; Threw boom];
  capabilities := None;
  listTools_result := listTools_result idle;
  callTool_result := callTool_result idle;
  listResources_result := listResources_result idle;
  readResource_result := readResource_result idle;
  listPrompts_result := listPrompts_result idle;
  getPrompt_result := getPrompt_result idle
|}.

(** A server that cannot be reached. *)
Definition unreachable : Server := {|
  connect_result := Threw boom;
  close_results := [];
  capabilities := None;
  listTools_result := listTools_result idle;
  callTool_result := callTool_result idle;
  listResources_result := listResources_result idle;
  readResource_result := readResource_result idle;
  listPrompts_result := listPrompts_result idle;
  getPrompt_result := getPrompt_result idle
|}.

Definition echo_schema : InputSchema.t := {|
  InputSchema.type_ := "object";
  InputSchema.properties :=
    Some [("message", JObject [("type", JString "string")])];
  InputSchema.required := Some ["message"];
  InputSchema.rest := []
|}.

Definition echo_tool : Sdk.Tool := {|
  Sdk.tool_name := "echo";
  Sdk.tool_description := Some "Echo a message";
  Sdk.tool_inputSchema := echo_schema;
  Sdk.tool_rest := [("title", JString "Echo")]
|}.

Definition text_block (s : string) : ContentBlock.t := {|
  ContentBlock.type_ := "text";
  ContentBlock.text := Some s;
  ContentBlock.data := None;
  ContentBlock.mimeType := None;
  ContentBlock.rest := []
|}.

Definition image_block (d : string) : ContentBlock.t := {|
  ContentBlock.type_ := "image";
  ContentBlock.text := None;
  ContentBlock.data := Some d;
  ContentBlock.mimeType := Some "image/png";
  ContentBlock.rest := []
|}.

Definition failed_call : Sdk.CallToolResult := {|
  Sdk.content := [text_block "{answer: none}"];
  Sdk.isError := Some true;
  Sdk.call_rest := []
|}.

Definition text_resource : Sdk.ResourceContents := {|
  Sdk.contents_uri := "file:///notes.txt";
  Sdk.contents_mimeType := Some "text/plain";
  Sdk.contents_text := Some "hello";
  Sdk.contents_blob := None
|}.

Definition blob_resource : Sdk.ResourceContents := {|
  Sdk.contents_uri := "file:///logo.png";
  Sdk.contents_mimeType := Some "image/png";
  Sdk.contents_text := None;
  Sdk.contents_blob := Some "iVBORw0KGgo="
|}.

Definition greeting : Sdk.GetPromptResult := {|
  Sdk.description := Some "A greeting";
  Sdk.messages :=
    [ {| Sdk.role := "user"; Sdk.msg_content := Sdk.ContentString "hi" |};
      {| Sdk.role := "assistant";
         Sdk.msg_content :=
           Sdk.ContentBlocks [text_block "a"; image_block "AAAA"; text_block "b"] |} ]
|}.

(** A prompt message as the protocol sends it: one text block. *)
Definition protocol_message : Sdk.PromptMessage := {|
  Sdk.role := "user";
  Sdk.msg_content := Sdk.ContentObject (text_block "Hello, world")
|}.

Definition protocol_greeting : Sdk.GetPromptResult := {|
  Sdk.description := Some "A greeting";
  Sdk.messages := [protocol_message]
|}.

(** A server that answers [getPrompt] as the protocol has it. *)
Definition prompt_server : Server := {|
  connect_result := Returned tt;
  close_results := [];
  capabilities := None;
  listTools_result := listTools_result idle;
  callTool_result := callTool_result idle;
  listResources_result := listResources_result idle;
  readResource_result := readResource_result idle;
  listPrompts_result := listPrompts_result idle;
  getPrompt_result := Returned protocol_greeting
|}.

(** A server with tools, resources and prompts. *)
Definition full (contents : list Sdk.ResourceContents) : Server := {|
  connect_result := Returned tt;
  close_results := [];
  capabilities :=
    Some {| Sdk.cap_tools := Some (JObject []);
            Sdk.cap_resources := Some (JObject []);
            Sdk.cap_prompts := None |};
  listTools_result := Returned {| Sdk.tools := [echo_tool] |};
  callTool_result := Returned failed_call;
  listResources_result := listResources_result idle;
  readResource_result := Returned {| Sdk.contents := contents |};
  listPrompts_result := listPrompts_result idle;
  getPrompt_result := Returned greeting
|}.
End Scenario.

(** ** The rest of [client.ts], and the life of a client object *)

Section Lifecycle.
Context {S : Type} `{SdkClient S}.

(** The transport [connect] builds in its [try] block: by the transport type,
    a process transport from [command], [args] and [env], or an event-stream
    transport from [new URL(sseUrl)], which may throw. *)
Definition planned_transport (this : MCPClient S) : Outcome Transport :=
  match transportType this with
  | stdio =>
      Returned (StdioClientTransport
                  (MCPClientConfig.command (config this))
                  (MCPClientConfig.args (config this))
                  (MCPClientConfig.env (config this)))
  | sse =>
      match new_URL (url_argument (MCPClientConfig.sseUrl (config this))) with
      | Returned u => Returned (SSEClientTransport u)
      | Threw e => Threw e
      end
  end.

Definition transport_kind (t : Transport) : TransportType :=
  match t with
  | StdioClientTransport _ _ _ => stdio
  | SSEClientTransport _ => sse
  end.

(** What [connect] returns for the capabilities object of the SDK. *)
Definition capability_flags (capabilities : option Sdk.Capabilities)
  : ServerCapabilities.t :=
  {| ServerCapabilities.tools := Some (truthy_json (capabilities ≫= Sdk.cap_tools));
     ServerCapabilities.resources :=
       Some (truthy_json (capabilities ≫= Sdk.cap_resources));
     ServerCapabilities.prompts :=
       Some (truthy_json (capabilities ≫= Sdk.cap_prompts)) |}.

(** [createMCPClient(config)]: [new MCPClient(config)], then [connect()] on
    the new object, which is returned.  The world handed in gives the trace
    and the console; its object is replaced by the new one. *)
Definition createMCPClient (cfg : MCPClientConfig.t) : Async (MCPClient S) :=
  fun w =>
    match constructor cfg with
    | Threw e => (Threw e, w)
    | Returned c =>
        (connect ≫= (fun _ => read_this))
          {| self := c; sdk_calls := sdk_calls w; console := console w |}
    end.

(** The world with the [debug] option of the client changed. *)
Definition set_debug (d : Property bool) (w : World S) : World S :=
  {| self :=
       {| client := client (self w);
          transport := transport (self w);
          config :=
            {| MCPClientConfig.command := MCPClientConfig.command (config (self w));
               MCPClientConfig.args := MCPClientConfig.args (config (self w));
               MCPClientConfig.env := MCPClientConfig.env (config (self w));
               MCPClientConfig.sseUrl := MCPClientConfig.sseUrl (config (self w));
               MCPClientConfig.timeout := MCPClientConfig.timeout (config (self w));
               MCPClientConfig.debug := d |};
          connected := connected (self w);
          transportType := transportType (self w) |};
     sdk_calls := sdk_calls w;
     console := console w |}.

(** The public methods that act on the object, as a caller may invoke them. *)
Inductive Method : Type :=
| M_connect
| M_disconnect
| M_listTools
| M_callTool (name : string) (args : list (string * JSON))
| M_listResources
| M_readResource (uri : string)
| M_listPrompts
| M_getPrompt (name : string) (args : list (string * string)).

(** The world after a method has run to its end, returning or throwing. *)
Definition invoke (m : Method) (w : World S) : World S :=
  match m with
  | M_connect => snd (connect w)
  | M_disconnect => snd (disconnect w)
  | M_listTools => snd (listTools w)
  | M_callTool name args => snd (callTool name args w)
  | M_listResources => snd (listResources w)
  | M_readResource uri => snd (readResource uri w)
  | M_listPrompts => snd (listPrompts w)
  | M_getPrompt name args => snd (getPrompt name args w)
  end.

(** The SDK object changes on its own (the server goes away, a notification
    arrives); the wrapper's fields do not. *)
Definition sdk_moves (s : S) (w : World S) : World S :=
  {| self := set_client s (self w); sdk_calls := sdk_calls w; console := console w |}.

(** The worlds a client object can be in: built by the constructor, then
    any sequence of method calls, the SDK moving in between as it likes. *)
Inductive reachable : World S -> Prop :=
| reach_new cfg c :
    constructor cfg = Returned c ->
    reachable {| self := c; sdk_calls := []; console := [] |}
| reach_invoke m w : reachable w -> reachable (invoke m w)
| reach_sdk s w : reachable w -> reachable (sdk_moves s w).

End Lifecycle.

(** ** Sessions of a client on concrete servers *)

Module Session.
Import Mock Scenario.

(** The config [new MCPClient({command: 'node'})] stores. *)
Definition node_config : MCPClientConfig.t := {|
  MCPClientConfig.command := Some "node";
  MCPClientConfig.args := None;
  MCPClientConfig.env := None;
  MCPClientConfig.sseUrl := None;
  MCPClientConfig.timeout := Holds 30000%Z;
  MCPClientConfig.debug := Holds false
|}.

(** The world right after [new MCPClient({command: 'node'})]. *)
Definition fresh : World Server := {|
  self := {| client := idle; transport := None; config := node_config;
             connected := false; transportType := stdio |};
  sdk_calls := [];
  console := []
|}.

(** [{command: 'node', timeout: undefined}] *)
Definition undefined_timeout : MCPClientConfig.t := {|
  MCPClientConfig.command := Some "node";
  MCPClientConfig.args := None;
  MCPClientConfig.env := None;
  MCPClientConfig.sseUrl := None;
  MCPClientConfig.timeout := Undefined;
  MCPClientConfig.debug := Missing
|}.

(** The world right after [new MCPClient({command: 'node', timeout: undefined})]. *)
Definition built : World Server := {|
  self := {| client := idle; transport := None;
             config :=
               {| MCPClientConfig.command := Some "node";
                  MCPClientConfig.args := None;
                  MCPClientConfig.env := None;
                  MCPClientConfig.sseUrl := None;
                  MCPClientConfig.timeout := Undefined;
                  MCPClientConfig.debug := Holds false |};
             connected := false; transportType := stdio |};
  sdk_calls := [];
  console := []
|}.

Definition node_transport : Transport :=
  StdioClientTransport (Some "node") None None.

(** That client once connected to the full server. *)
Definition live : World Server :=
  invoke M_connect (sdk_moves (full [text_resource]) fresh).

(** A client for an address that is no URL. *)
Definition bad_address : World Server := {|
  self := {| client := idle; transport := None;
             config := with_sseUrl "localhost" no_config;
             connected := false; transportType := sse |};
  sdk_calls := [];
  console := []
|}.

(** A server whose every request fails. *)
Definition failing : Server := {|
  connect_result := Returned tt;
  close_results := [];
  capabilities := None;
  listTools_result := Threw boom;
  callTool_result := Threw boom;
  listResources_result := Threw boom;
  readResource_result := Threw boom;
  listPrompts_result := Threw boom;
  getPrompt_result := Threw boom
|}.

Definition notes : Sdk.Resource := {|
  Sdk.resource_uri := "file:///notes.txt";
  Sdk.resource_name := "notes";
  Sdk.resource_description := None;
  Sdk.resource_mimeType := Some "text/plain";
  Sdk.resource_rest := [("size", JNumber 5)]
|}.

Definition greet : Sdk.Prompt := {|
  Sdk.prompt_name := "greet";
  Sdk.prompt_description := Some "Say hello";
  Sdk.prompt_arguments :=
    Some [ {| PromptArgument.name := "who";
              PromptArgument.description := None;
              PromptArgument.required := Some true |} ];
  Sdk.prompt_rest := []
|}.

(** A server that lists one resource and one prompt. *)
Definition catalogue : Server := {|
  connect_result := Returned tt;
  close_results := [];
  capabilities := None;
  listTools_result := listTools_result idle;
  callTool_result := callTool_result idle;
  listResources_result := Returned {| Sdk.resources := [notes] |};
  readResource_result := Returned {| Sdk.contents := [blob_resource; text_resource] |};
  listPrompts_result := Returned {| Sdk.prompts := [greet] |};
  getPrompt_result := getPrompt_result idle
|}.
End Session.

(** ** Properties of the wrapper *)

(** Unfolds the plumbing of [Async] so that a method body computes. *)
Ltac unfold_async :=
  unfold mbind, mret, Async_bind, Async_ret, throw, try_catch, lift, read_this,
    write_this, console_log, sdk_call, when in *.

Section ClientProperties.
Context {S : Type} `{SdkClient S}.
Implicit Types (w : World S) (e cause : JsError).

Lemma ensureConnected_disconnected w :
  isConnected w = false -> ensureConnected w = (Threw NotConnectedError, w).
Proof.
  unfold isConnected, ensureConnected. unfold_async. intros ->. reflexivity.
Qed.

Lemma ensureConnected_connected w :
  isConnected w = true -> ensureConnected w = (Returned tt, w).
Proof.
  unfold isConnected, ensureConnected. unfold_async. intros ->. reflexivity.
Qed.

(** A method that starts with [this.ensureConnected()] stops there on a
    disconnected client. *)
Lemma guarded_disconnected {A : Type} (body : unit -> Async A) w :
  isConnected w = false ->
  (ensureConnected ≫= body) w = (Threw NotConnectedError, w).
Proof.
  intros Hw. unfold mbind, Async_bind.
  rewrite (ensureConnected_disconnected w Hw). reflexivity.
Qed.

(** ... and runs its body on a connected one. *)
Lemma guarded_connected {A : Type} (body : unit -> Async A) w :
  isConnected w = true -> (ensureConnected ≫= body) w = body tt w.
Proof.
  intros Hw. unfold mbind, Async_bind.
  rewrite (ensureConnected_connected w Hw). reflexivity.
Qed.

(** C1. On a client that is not connected, each of [listTools], [callTool],
    [listResources], [readResource], [listPrompts] and [getPrompt] throws the
    not-connected error and leaves the world as it was: the trace of SDK
    calls, in particular, is the same, so no request was made. *)
Theorem operations_require_connection w :
  isConnected w = false ->
  listTools w = (Threw NotConnectedError, w) /\
  (forall name args, callTool name args w = (Threw NotConnectedError, w)) /\
  listResources w = (Threw NotConnectedError, w) /\
  (forall uri, readResource uri w = (Threw NotConnectedError, w)) /\
  listPrompts w = (Threw NotConnectedError, w) /\
  (forall name args, getPrompt name args w = (Threw NotConnectedError, w)).
Proof.
  intros Hw. repeat split; intros;
    unfold listTools, callTool, listResources, readResource, listPrompts, getPrompt;
    apply guarded_disconnected; assumption.
Qed.

(** C4. [connect()] on a connected client throws the already-connected error
    and leaves the whole world unchanged: the connection flag, the transport
    type, the SDK client (which holds the negotiated capabilities) and the
    trace of SDK calls. *)
Theorem connect_when_connected w :
  isConnected w = true -> connect w = (Threw AlreadyConnectedError, w).
Proof.
  unfold isConnected, connect. unfold_async. intros ->. reflexivity.
Qed.

(** What [disconnect] does on a connected client, by the outcome of the
    SDK's [close()]. *)
Lemma disconnect_close_fails w cause s' :
  isConnected w = true ->
  sdk_close (client (self w)) = (Threw cause, s') ->
  disconnect w =
    (Threw (DisconnectError cause),
     {| self := set_client s' (self w);
        sdk_calls := sdk_calls w ++ [Call_close];
        console := console w |}).
Proof.
  unfold isConnected, disconnect. unfold_async. intros -> Hclose.
  cbn. rewrite Hclose. reflexivity.
Qed.

Lemma disconnect_close_succeeds w s' :
  isConnected w = true ->
  sdk_close (client (self w)) = (Returned tt, s') ->
  exists w', disconnect w = (Returned tt, w') /\ isConnected w' = false.
Proof.
  unfold isConnected, disconnect. unfold_async. intros -> Hclose.
  cbn. rewrite Hclose.
  destruct (truthy_bool _); eexists; split; reflexivity.
Qed.

Lemma disconnect_disconnected w :
  isConnected w = false -> disconnect w = (Returned tt, w).
Proof.
  unfold isConnected, disconnect. unfold_async. intros ->. reflexivity.
Qed.

(** [disconnect] returns only on a disconnected client. *)
Lemma disconnect_returned w w' :
  disconnect w = (Returned tt, w') -> isConnected w' = false.
Proof.
  intros Hd. destruct (isConnected w) eqn:Hw.
  - destruct (sdk_close (client (self w))) as [[[]|cause] s'] eqn:Hclose.
    + destruct (disconnect_close_succeeds w s' Hw Hclose) as (w'' & Hd' & Hc).
      congruence.
    + rewrite (disconnect_close_fails w cause s' Hw Hclose) in Hd. discriminate.
  - rewrite (disconnect_disconnected w Hw) in Hd. congruence.
Qed.

(** [disconnect] throws only when the client stays connected. *)
Lemma disconnect_threw w e w' :
  disconnect w = (Threw e, w') -> isConnected w' = true.
Proof.
  intros Hd. destruct (isConnected w) eqn:Hw.
  - destruct (sdk_close (client (self w))) as [[[]|cause] s'] eqn:Hclose.
    + destruct (disconnect_close_succeeds w s' Hw Hclose) as (w'' & Hd' & Hc).
      congruence.
    + rewrite (disconnect_close_fails w cause s' Hw Hclose) in Hd.
      injection Hd as _ <-. exact Hw.
  - rewrite (disconnect_disconnected w Hw) in Hd. discriminate.
Qed.

(** C9. When the SDK's [close()] throws during [disconnect()] on a connected
    client, [disconnect()] throws an error built around the one it caught,
    and the client still reports connected. *)
Theorem disconnect_failure_stays_connected w cause s' :
  isConnected w = true ->
  sdk_close (client (self w)) = (Threw cause, s') ->
  exists w',
    disconnect w = (Threw (DisconnectError cause), w') /\
    isConnected w' = true.
Proof.
  intros Hw Hclose. eexists. split.
  - apply disconnect_close_fails; eassumption.
  - exact Hw.
Qed.

(** C3, amended. Two [disconnect()] calls in a row: the second one returns
    without error on a client that reports disconnected exactly when the
    first call returned without error or the SDK's [close()] succeeds on the
    second call. *)
Theorem disconnect_twice w :
  let '(r1, w1) := disconnect w in
  let '(r2, w2) := disconnect w1 in
  (r2 = Returned tt /\ isConnected w2 = false) <->
  (r1 = Returned tt \/ fst (sdk_close (client (self w1))) = Returned tt).
Proof.
  destruct (disconnect w) as [r1 w1] eqn:H1.
  destruct (disconnect w1) as [r2 w2] eqn:H2.
  destruct r1 as [[]|e1].
  - pose proof (disconnect_returned _ _ H1) as Hw1.
    rewrite (disconnect_disconnected w1 Hw1) in H2.
    injection H2 as <- <-. split; [left; reflexivity | auto].
  - pose proof (disconnect_threw _ _ _ H1) as Hw1.
    destruct (sdk_close (client (self w1))) as [[[]|cause] s'] eqn:Hclose.
    + destruct (disconnect_close_succeeds w1 s' Hw1 Hclose) as (w'' & Hd & Hc).
      rewrite Hd in H2. injection H2 as <- <-.
      split; [right; reflexivity | auto].
    + rewrite (disconnect_close_fails w1 cause s' Hw1 Hclose) in H2.
      injection H2 as <- <-. cbn.
      split; [intros [Hr _]; discriminate | intros [Hr | Hr]; discriminate].
Qed.


(** C5. On a connected client, whatever result the SDK returns for the tool
    call, [callTool] returns it as a value: the content blocks are the
    server's, block for block and unread (a text payload stays the string it
    was), and the [isError] flag is the server's; with [isError] true the
    call still returns and does not throw. *)
Theorem callTool_passes_result_through w name args response s' :
  isConnected w = true ->
  sdk_callTool name args (client (self w)) = (Returned response, s') ->
  exists result w',
    callTool name args w = (Returned result, w') /\
    ToolCallResult.content result = Sdk.content response /\
    ToolCallResult.isError result = Sdk.isError response.
Proof.
  intros Hw Hsdk. unfold callTool. rewrite (guarded_connected _ w Hw).
  unfold_async. cbn.
  destruct (truthy_bool _); cbn; rewrite Hsdk; cbn;
    eexists; eexists; (split; [reflexivity | split; reflexivity]).
Qed.

(** C6. On a connected client, [listTools] returns one descriptor per tool of
    the server's response, in the same order, and the descriptor at each
    position has the name, the description and the input schema (its type,
    properties and required list) of the server's tool at that position. *)
Theorem listTools_preserves_descriptors w response s' :
  isConnected w = true ->
  sdk_listTools (client (self w)) = (Returned response, s') ->
  exists tools w',
    listTools w = (Returned tools, w') /\
    length tools = length (Sdk.tools response) /\
    forall (i : nat) (sent : Sdk.Tool),
      Sdk.tools response !! i = Some sent ->
      exists tool : MCPTool.t,
        tools !! i = Some tool /\
        MCPTool.name tool = Sdk.tool_name sent /\
        MCPTool.description tool = Sdk.tool_description sent /\
        MCPTool.inputSchema tool = Sdk.tool_inputSchema sent /\
        InputSchema.type_ (MCPTool.inputSchema tool) =
          InputSchema.type_ (Sdk.tool_inputSchema sent) /\
        InputSchema.properties (MCPTool.inputSchema tool) =
          InputSchema.properties (Sdk.tool_inputSchema sent) /\
        InputSchema.required (MCPTool.inputSchema tool) =
          InputSchema.required (Sdk.tool_inputSchema sent).
Proof.
  intros Hw Hsdk. unfold listTools. rewrite (guarded_connected _ w Hw).
  unfold_async. cbn. rewrite Hsdk. cbn.
  eexists. eexists. split; [reflexivity|]. split.
  - apply length_map.
  - intros i sent Hi. eexists. split.
    + change (map ?f ?l) with (f <$> l). rewrite list_lookup_fmap, Hi. reflexivity.
    + cbn. repeat split.
Qed.

(** C7. On a connected client, when the content the SDK returned for the
    resource (the first entry of [contents]) has a text, [readResource]
    returns that text; when it has none (no entry, or a first entry without
    the [text] key), [readResource] throws the unsupported-content error. *)
Theorem readResource_text_or_unsupported w uri response s' :
  isConnected w = true ->
  sdk_readResource uri (client (self w)) = (Returned response, s') ->
  (forall text,
     textual_representation response = Some text ->
     fst (readResource uri w) = Returned text) /\
  (textual_representation response = None ->
   fst (readResource uri w) = Threw UnsupportedContentError).
Proof.
  intros Hw Hsdk. unfold readResource. rewrite (guarded_connected _ w Hw).
  unfold_async. unfold textual_representation. rewrite Hsdk.
  split; [intros text Ht | intros Ht]; unfold mbind in Ht; rewrite Ht; reflexivity.
Qed.

Lemma append_empty_r (s : string) : s ++ "" = s.
Proof. induction s as [|c s IH]; cbn; [reflexivity | rewrite IH; reflexivity]. Qed.

(** Joining with the empty separator appends the pieces. *)
Lemma join_empty (l : list string) : join "" l = foldr String.append "" l.
Proof.
  induction l as [|x [|y l] IH].
  - reflexivity.
  - cbn. symmetry. apply append_empty_r.
  - change (join "" (x :: y :: l)) with (x ++ "" ++ join "" (y :: l)).
    rewrite IH. reflexivity.
Qed.

(** Blocks without text add nothing to the flattened content. *)
Lemma flatten_blocks (blocks : list ContentBlock.t) :
  join "" (map (fun c => default "" (ContentBlock.text c)) blocks) =
  foldr String.append "" (block_texts blocks).
Proof.
  rewrite join_empty. unfold block_texts.
  induction blocks as [|c blocks IH]; [reflexivity|].
  cbn. rewrite IH. destruct (ContentBlock.text c); reflexivity.
Qed.

(** A callback that throws on some element makes the whole [map] throw,
    with that error when it is the only one the callback ever throws. *)
Lemma map_throwing_threw {A B : Type} (f : A -> Outcome B) (l : list A) e x :
  (forall y e', f y = Threw e' -> e' = e) ->
  In x l -> f x = Threw e ->
  map_throwing f l = Threw e.
Proof.
  intros Honly Hin Hx. induction l as [|y l IH]; [destruct Hin|].
  cbn. destruct (f y) as [b|e'] eqn:Hy.
  - destruct Hin as [-> | Hin]; [congruence|].
    rewrite (IH Hin). reflexivity.
  - rewrite (Honly y e' Hy). reflexivity.
Qed.

(** A callback that returns on every element maps the array. *)
Lemma map_throwing_returned {A B : Type} (f : A -> Outcome B) (g : A -> B)
    (l : list A) :
  Forall (fun x => f x = Returned (g x)) l ->
  map_throwing f l = Returned (map g l).
Proof.
  induction 1 as [|x l Hx _ IH]; [reflexivity|].
  cbn. rewrite Hx, IH. reflexivity.
Qed.

(** On the shapes [getPrompt] is written for, a string or an array of
    blocks in every message, it returns one message per message of the
    response, in order, with the role kept; a string is returned as it is and
    an array becomes the texts of its blocks that have one, appended in
    order. *)
Lemma getPrompt_on_strings_and_arrays w name args response s' :
  isConnected w = true ->
  sdk_getPrompt name args (client (self w)) = (Returned response, s') ->
  Forall (fun msg => forall block, Sdk.msg_content msg <> Sdk.ContentObject block)
         (Sdk.messages response) ->
  exists result w',
    getPrompt name args w = (Returned result, w') /\
    PromptResult.description result = Sdk.description response /\
    length (PromptResult.messages result) = length (Sdk.messages response) /\
    forall (i : nat) (msg : Sdk.PromptMessage),
      Sdk.messages response !! i = Some msg ->
      exists out : PromptMessage.t,
        PromptResult.messages result !! i = Some out /\
        PromptMessage.role out = Sdk.role msg /\
        (forall s, Sdk.msg_content msg = Sdk.ContentString s ->
                   PromptMessage.content out = s) /\
        (forall blocks, Sdk.msg_content msg = Sdk.ContentBlocks blocks ->
                        PromptMessage.content out =
                          foldr String.append "" (block_texts blocks)).
Proof.
  intros Hw Hsdk Hshapes. unfold getPrompt. rewrite (guarded_connected _ w Hw).
  unfold_async. cbn. rewrite Hsdk. cbn.
  rewrite (map_throwing_returned _
             (fun msg =>
                {| PromptMessage.role := Sdk.role msg;
                   PromptMessage.content :=
                     match Sdk.msg_content msg with
                     | Sdk.ContentString s => s
                     | Sdk.ContentBlocks blocks =>
                         foldr String.append "" (block_texts blocks)
                     | Sdk.ContentObject _ => ""
                     end |})).
  - eexists. eexists. split; [reflexivity|]. cbn.
    split; [reflexivity|]. split; [apply length_map|].
    intros i msg Hi. eexists. split.
    + change (map ?f ?l) with (f <$> l). rewrite list_lookup_fmap, Hi. reflexivity.
    + cbn. split; [reflexivity|]. split; intros ? ->; reflexivity.
  - eapply Forall_impl; [exact Hshapes|]. cbn. intros msg Hmsg.
    destruct (Sdk.msg_content msg) as [block|s|blocks]; cbn.
    + destruct (Hmsg block eq_refl).
    + reflexivity.
    + rewrite flatten_blocks. reflexivity.
Qed.

(** C10, on the code. A prompt message of the protocol carries one content
    block as its content, neither a string nor an array.  When the SDK's
    response holds such a message, [getPrompt] on a connected client does not
    return the block's text: sending [.map] to the block throws a
    [TypeError], and the whole call throws it, after the SDK call was made. *)
Theorem getPrompt_block_content_throws w name args response s' msg block :
  isConnected w = true ->
  sdk_getPrompt name args (client (self w)) = (Returned response, s') ->
  In msg (Sdk.messages response) ->
  Sdk.msg_content msg = Sdk.ContentObject block ->
  fst (getPrompt name args w) =
    Threw (new_TypeError "msg.content.map is not a function") /\
  sdk_calls (snd (getPrompt name args w)) =
    (sdk_calls w ++ [Call_getPrompt name args])%list.
Proof.
  intros Hw Hsdk Hin Hblock. unfold getPrompt. rewrite (guarded_connected _ w Hw).
  unfold_async. cbn. rewrite Hsdk. cbn.
  rewrite (map_throwing_threw _ _
             (new_TypeError "msg.content.map is not a function") msg).
  - split; reflexivity.
  - intros y e'. destruct (Sdk.msg_content y); cbn; congruence.
  - exact Hin.
  - rewrite Hblock. reflexivity.
Qed.

Lemma truthy_string_provided (o : option string) :
  truthy_string o = true <-> provided o.
Proof.
  unfold provided. destruct o as [v|]; cbn.
  - destruct (String.eqb_spec v "") as [->|Hv]; cbn.
    + split; [discriminate | intros (v & [= <-] & Hv); congruence].
    + split; [intros _; exists v; auto | reflexivity].
  - split; [discriminate | intros (v & Hv & _); discriminate].
Qed.

(** C2, amended. The constructor resolves the transport type from the two
    options, an option left out or set to the empty string counting as not
    provided: event-stream when [sseUrl] is a non-empty string, whatever
    [command] is; otherwise process when [command] is a non-empty string;
    otherwise it throws the configuration error. *)
Theorem constructor_resolves_transport (cfg : MCPClientConfig.t) :
  (provided (MCPClientConfig.sseUrl cfg) ->
   resolved (constructor cfg) = Returned sse) /\
  (~ provided (MCPClientConfig.sseUrl cfg) ->
   provided (MCPClientConfig.command cfg) ->
   resolved (constructor cfg) = Returned stdio) /\
  (~ provided (MCPClientConfig.sseUrl cfg) ->
   ~ provided (MCPClientConfig.command cfg) ->
   resolved (constructor cfg) = Threw ConfigurationError).
Proof.
  unfold constructor.
  pose proof (truthy_string_provided (MCPClientConfig.sseUrl cfg)) as Hs.
  pose proof (truthy_string_provided (MCPClientConfig.command cfg)) as Hc.
  destruct (truthy_string (MCPClientConfig.sseUrl cfg));
    [|destruct (truthy_string (MCPClientConfig.command cfg))];
    (split; [|split]); intros; try reflexivity; exfalso;
    intuition discriminate.
Qed.

End ClientProperties.

(** ** The wrapper run on concrete servers *)

Example connect_reports_capabilities :
  let w := Mock.world (Scenario.full []) false in
  fst (connect w) =
    Returned {| ServerCapabilities.tools := Some true;
                ServerCapabilities.resources := Some true;
                ServerCapabilities.prompts := Some false |} /\
  isConnected (snd (connect w)) = true /\
  sdk_calls (snd (connect w)) =
    [Call_connect (StdioClientTransport (Some "node") None None);
     Call_getServerCapabilities].
Proof. repeat split. Qed.

Example readResource_blob_first :
  fst (readResource "file:///logo.png"
         (Mock.world (Scenario.full [Scenario.blob_resource; Scenario.text_resource]) true)) =
  Threw UnsupportedContentError.
Proof. reflexivity. Qed.

Example readResource_no_contents :
  fst (readResource "file:///none" (Mock.world (Scenario.full []) true)) =
  Threw UnsupportedContentError.
Proof. reflexivity. Qed.

Example getPrompt_greeting :
  fst (getPrompt "greet" [] (Mock.world (Scenario.full []) true)) =
  Returned {| PromptResult.description := Some "A greeting";
              PromptResult.messages :=
                [ {| PromptMessage.role := "user"; PromptMessage.content := "hi" |};
                  {| PromptMessage.role := "assistant";
                     PromptMessage.content := "ab" |} ] |}.
Proof. reflexivity. Qed.

Example constructor_both_options :
  resolved (constructor (S := Mock.Server)
              (Mock.with_sseUrl "http://localhost:3000/mcp"
                 (Mock.with_command "node" Mock.no_config))) =
  Returned sse.
Proof. reflexivity. Qed.

Lemma operations_require_connection_witness :
  let w := Mock.world Mock.idle false in
  isConnected w = false /\
  listTools w = (Threw NotConnectedError, w) /\
  (forall name args, callTool name args w = (Threw NotConnectedError, w)) /\
  listResources w = (Threw NotConnectedError, w) /\
  (forall uri, readResource uri w = (Threw NotConnectedError, w)) /\
  listPrompts w = (Threw NotConnectedError, w) /\
  (forall name args, getPrompt name args w = (Threw NotConnectedError, w)).
Proof.
  split; [reflexivity|].
  apply (operations_require_connection (Mock.world Mock.idle false)).
  reflexivity.
Defined.

Lemma connect_when_connected_witness :
  let w := Mock.world (Scenario.full []) true in
  isConnected w = true /\ connect w = (Threw AlreadyConnectedError, w).
Proof.
  split; [reflexivity|].
  apply (connect_when_connected (Mock.world (Scenario.full []) true)).
  reflexivity.
Defined.

Lemma disconnect_failure_stays_connected_witness :
  let w := Mock.world Scenario.close_fails_twice true in
  isConnected w = true /\
  exists w',
    disconnect w = (Threw (DisconnectError Scenario.boom), w') /\
    isConnected w' = true.
Proof.
  split; [reflexivity|].
  eapply (disconnect_failure_stays_connected
            (Mock.world Scenario.close_fails_twice true) Scenario.boom);
    reflexivity.
Defined.

(** C3 as stated fails: on a connected client whose [close()] fails twice,
    the second [disconnect()] throws and the client still reports
    connected. *)
Lemma disconnect_twice_counterexample :
  let w := Mock.world Scenario.close_fails_twice true in
  let w1 := snd (disconnect w) in
  fst (disconnect w1) = Threw (DisconnectError Scenario.boom) /\
  isConnected (snd (disconnect w1)) = true.
Proof. split; reflexivity. Qed.


Lemma callTool_passes_result_through_witness :
  let w := Mock.world (Scenario.full []) true in
  isConnected w = true /\
  exists result w',
    callTool "rag_query" [("query", JString "x"); ("topK", JNumber 5)] w =
      (Returned result, w') /\
    ToolCallResult.content result = [Scenario.text_block "{answer: none}"] /\
    ToolCallResult.isError result = Some true.
Proof.
  split; [reflexivity|].
  eapply (callTool_passes_result_through (Mock.world (Scenario.full []) true)
            "rag_query" _ Scenario.failed_call);
    reflexivity.
Defined.

Lemma listTools_preserves_descriptors_witness :
  let w := Mock.world (Scenario.full []) true in
  isConnected w = true /\
  exists tools w',
    listTools w = (Returned tools, w') /\
    length tools = 1 /\
    forall (i : nat) (sent : Sdk.Tool),
      [Scenario.echo_tool] !! i = Some sent ->
      exists tool : MCPTool.t,
        tools !! i = Some tool /\
        MCPTool.name tool = Sdk.tool_name sent /\
        MCPTool.description tool = Sdk.tool_description sent /\
        MCPTool.inputSchema tool = Sdk.tool_inputSchema sent /\
        InputSchema.type_ (MCPTool.inputSchema tool) =
          InputSchema.type_ (Sdk.tool_inputSchema sent) /\
        InputSchema.properties (MCPTool.inputSchema tool) =
          InputSchema.properties (Sdk.tool_inputSchema sent) /\
        InputSchema.required (MCPTool.inputSchema tool) =
          InputSchema.required (Sdk.tool_inputSchema sent).
Proof.
  split; [reflexivity|].
  eapply (listTools_preserves_descriptors (Mock.world (Scenario.full []) true)
            {| Sdk.tools := [Scenario.echo_tool] |});
    reflexivity.
Defined.

Lemma readResource_text_or_unsupported_witness :
  let w := Mock.world (Scenario.full [Scenario.text_resource]) true in
  isConnected w = true /\
  fst (readResource "file:///notes.txt" w) = Returned "hello".
Proof.
  split; [reflexivity|].
  eapply (readResource_text_or_unsupported
            (Mock.world (Scenario.full [Scenario.text_resource]) true)
            "file:///notes.txt"
            {| Sdk.contents := [Scenario.text_resource] |});
    reflexivity.
Defined.

Lemma getPrompt_block_content_throws_witness :
  let w := Mock.world Scenario.prompt_server true in
  isConnected w = true /\
  fst (getPrompt "greet" [("who", "world")] w) =
    Threw (new_TypeError "msg.content.map is not a function") /\
  sdk_calls (snd (getPrompt "greet" [("who", "world")] w)) =
    [Call_getPrompt "greet" [("who", "world")]].
Proof.
  split; [reflexivity|].
  apply (getPrompt_block_content_throws
           (Mock.world Scenario.prompt_server true) "greet" [("who", "world")]
           Scenario.protocol_greeting Scenario.prompt_server
           Scenario.protocol_message (Scenario.text_block "Hello, world"));
    [reflexivity | reflexivity | left; reflexivity | reflexivity].
Defined.

(** C2 as stated fails on an [sseUrl] set to the empty string: with a
    command the transport resolves to process, and alone the construction
    throws, although [sseUrl] is set. *)
Lemma constructor_empty_sseUrl_counterexample :
  let both := Mock.with_sseUrl "" (Mock.with_command "node" Mock.no_config) in
  let only := Mock.with_sseUrl "" Mock.no_config in
  MCPClientConfig.sseUrl both = Some "" /\
  resolved (constructor (S := Mock.Server) both) = Returned stdio /\
  MCPClientConfig.sseUrl only = Some "" /\
  MCPClientConfig.command only = None /\
  resolved (constructor (S := Mock.Server) only) = Threw ConfigurationError.
Proof. repeat split. Qed.

Lemma constructor_resolves_transport_witness :
  let url := "http://localhost:3000/mcp" in
  resolved (constructor (S := Mock.Server)
              (Mock.with_sseUrl url (Mock.with_command "node" Mock.no_config))) =
    Returned sse /\
  resolved (constructor (S := Mock.Server) (Mock.with_command "node" Mock.no_config)) =
    Returned stdio /\
  resolved (constructor (S := Mock.Server) Mock.no_config) = Threw ConfigurationError.
Proof.
  assert (Hno : ~ provided None) by (intros (v & Hv & _); discriminate).
  split; [|split].
  - apply (constructor_resolves_transport
             (Mock.with_sseUrl "http://localhost:3000/mcp"
                (Mock.with_command "node" Mock.no_config))).
    eexists; split; [reflexivity | discriminate].
  - apply (constructor_resolves_transport (Mock.with_command "node" Mock.no_config)).
    + exact Hno.
    + eexists; split; [reflexivity | discriminate].
  - apply (constructor_resolves_transport Mock.no_config); exact Hno.
Defined.

(** A whole session: construct, connect, list the tools, disconnect; the
    next call is refused. *)
Example session :
  match constructor (S := Mock.Server) (Mock.with_command "node" Mock.no_config) with
  | Threw _ => False
  | Returned c =>
      let w0 := {| self := set_client (Scenario.full []) c;
                   sdk_calls := []; console := [] |} in
      let w1 := snd (connect w0) in
      let w2 := snd (listTools w1) in
      let w3 := snd (disconnect w2) in
      fst (listTools w1) =
        Returned [ {| MCPTool.name := "echo";
                      MCPTool.description := Some "Echo a message";
                      MCPTool.inputSchema := Scenario.echo_schema |} ] /\
      fst (disconnect w2) = Returned tt /\
      isConnected w3 = false /\
      fst (listTools w3) = Threw NotConnectedError /\
      sdk_calls (snd (listTools w3)) =
        [Call_connect (StdioClientTransport (Some "node") None None);
         Call_getServerCapabilities; Call_listTools; Call_close]
  end.
Proof. cbn. repeat split. Qed.

(** ** Further properties: the connection life cycle *)

(** Splits the goal on the outcome of the SDK call it waits for. *)
Ltac destruct_sdk :=
  match goal with
  | |- context [sdk_connect ?t ?s] => destruct (sdk_connect t s) as [[[]|?] ?] eqn:?
  | |- context [sdk_close ?s] => destruct (sdk_close s) as [[[]|?] ?] eqn:?
  | |- context [sdk_listTools ?s] => destruct (sdk_listTools s) as [[?|?] ?] eqn:?
  | |- context [sdk_callTool ?n ?a ?s] =>
      destruct (sdk_callTool n a s) as [[?|?] ?] eqn:?
  | |- context [sdk_listResources ?s] =>
      destruct (sdk_listResources s) as [[?|?] ?] eqn:?
  | |- context [sdk_readResource ?u ?s] =>
      destruct (sdk_readResource u s) as [[?|?] ?] eqn:?
  | |- context [sdk_listPrompts ?s] => destruct (sdk_listPrompts s) as [[?|?] ?] eqn:?
  | |- context [sdk_getPrompt ?n ?a ?s] =>
      destruct (sdk_getPrompt n a s) as [[?|?] ?] eqn:?
  end.

(** Splits the goal on every test the method body makes. *)
Ltac crunch :=
  repeat (cbn in *;
          first
            [ match goal with
              | |- context [truthy_bool ?d] => destruct (truthy_bool d) eqn:?
              end
            | destruct_sdk
            | match goal with
              | |- context [map_throwing ?f ?l] => destruct (map_throwing f l) eqn:?
              end
            | match goal with
              | |- context [match ?x with _ => _ end] =>
                  lazymatch x with
                  | context [match _ with _ => _ end] => fail
                  | _ => destruct x eqn:?
                  end
              end ]).

Section LifecycleProperties.
Context {S : Type} `{SdkClient S}.
Implicit Types (w : World S) (e cause : JsError) (t : Transport).

Lemma connect_no_transport w cause :
  isConnected w = false ->
  planned_transport (self w) = Threw cause ->
  connect w = (Threw (ConnectionError cause), w).
Proof.
  intros Hc Ht. destruct w as [[cl tr cf cn ty] calls out].
  unfold isConnected in Hc. cbn in Hc. subst cn.
  unfold planned_transport in Ht. cbn in Ht.
  unfold connect. unfold_async. cbn.
  destruct ty; [discriminate|].
  destruct (new_URL _) as [u|e0]; [discriminate|].
  injection Ht as ->. reflexivity.
Qed.

Lemma connect_ok w t s' :
  isConnected w = false ->
  planned_transport (self w) = Returned t ->
  sdk_connect t (client (self w)) = (Returned tt, s') ->
  exists w',
    connect w = (Returned (capability_flags (sdk_getServerCapabilities s')), w') /\
    self w' =
      {| client := s'; transport := Some t; config := config (self w);
         connected := true; transportType := transportType (self w) |} /\
    sdk_calls w' = (sdk_calls w ++ [Call_connect t; Call_getServerCapabilities])%list /\
    console w' =
      (console w ++
       if truthy_bool (MCPClientConfig.debug (config (self w)))
       then [ {| line_text :=
                   "[MCP Client] Connected via " ++
                   transport_name (transportType (self w));
                 line_args := [] |} ]
       else [])%list.
Proof.
  unfold isConnected, planned_transport, connect. unfold_async.
  intros Hc Ht Hs. rewrite Hc.
  destruct (transportType (self w)) eqn:Htt.
  - injection Ht as <-. cbn. rewrite Hs. cbn.
    destruct (truthy_bool _); cbn; eexists;
      (split; [reflexivity|]); unfold set_client, set_connected, set_transport;
      cbn; rewrite <- ?app_assoc, ?app_nil_r, ?Htt; auto.
  - destruct (new_URL _) as [u|e0]; [|discriminate].
    injection Ht as <-. cbn. rewrite Hs. cbn.
    destruct (truthy_bool _); cbn; eexists;
      (split; [reflexivity|]); unfold set_client, set_connected, set_transport;
      cbn; rewrite <- ?app_assoc, ?app_nil_r, ?Htt; auto.
Qed.

Lemma connect_sdk_fails w t cause s' :
  isConnected w = false ->
  planned_transport (self w) = Returned t ->
  sdk_connect t (client (self w)) = (Threw cause, s') ->
  connect w =
    (Threw (ConnectionError cause),
     {| self :=
          {| client := s'; transport := Some t; config := config (self w);
             connected := false; transportType := transportType (self w) |};
        sdk_calls := sdk_calls w ++ [Call_connect t];
        console := console w |}).
Proof.
  unfold isConnected, planned_transport, connect. unfold_async.
  intros Hc Ht Hs. rewrite Hc.
  destruct (transportType (self w)) eqn:Htt.
  - injection Ht as <-. cbn. rewrite Hs.
    unfold set_client, set_connected, set_transport. cbn. rewrite Htt.
    reflexivity.
  - destruct (new_URL _) as [u|e0]; [|discriminate].
    injection Ht as <-. cbn. rewrite Hs.
    unfold set_client, set_connected, set_transport. cbn. rewrite Htt.
    reflexivity.
Qed.

(** X1. A successful [connect()]: the transport is the one planned from the
    config, the SDK is called twice ([connect(transport)], then
    [getServerCapabilities()]), the client reports connected and keeps the
    transport, and each capability flag returned is the truthiness of what
    the SDK reports for it. *)
Theorem connect_success w t s' :
  isConnected w = false ->
  planned_transport (self w) = Returned t ->
  sdk_connect t (client (self w)) = (Returned tt, s') ->
  exists w',
    connect w = (Returned (capability_flags (sdk_getServerCapabilities s')), w') /\
    isConnected w' = true /\
    transport (self w') = Some t /\
    getTransportType w' = getTransportType w /\
    sdk_calls w' = (sdk_calls w ++ [Call_connect t; Call_getServerCapabilities])%list.
Proof.
  intros Hc Ht Hs.
  destruct (connect_ok w t s' Hc Ht Hs) as (w' & Hw' & Hself & Hcalls & _).
  exists w'. unfold isConnected, getTransportType. rewrite Hself. cbn. auto.
Qed.

(** X2. [connect()] on an event-stream client whose URL the [URL]
    constructor rejects throws the connection error around that rejection
    and does nothing else: no SDK call is made and the world is as it was. *)
Theorem connect_rejected_url w cause :
  isConnected w = false ->
  getTransportType w = sse ->
  new_URL (url_argument (MCPClientConfig.sseUrl (config (self w)))) = Threw cause ->
  connect w = (Threw (ConnectionError cause), w).
Proof.
  unfold getTransportType. intros Hc Htt Hu.
  apply connect_no_transport; [exact Hc|].
  unfold planned_transport. rewrite Htt, Hu. reflexivity.
Qed.

(** X3. [connect()] throws the already-connected error exactly on a
    connected client: a failed attempt or a completed [disconnect()] leaves a
    client on which [connect()] is tried again in full. *)
Theorem connect_refused_iff_connected w :
  fst (connect w) = Threw AlreadyConnectedError <-> isConnected w = true.
Proof.
  split.
  - intros Hr. destruct (isConnected w) eqn:Hc; [reflexivity|]. exfalso.
    destruct (planned_transport (self w)) as [t|cause] eqn:Ht.
    + destruct (sdk_connect t (client (self w))) as [[[]|cause] s'] eqn:Hs.
      * destruct (connect_ok w t s' Hc Ht Hs) as (w' & Hw' & _).
        rewrite Hw' in Hr. discriminate.
      * rewrite (connect_sdk_fails w t cause s' Hc Ht Hs) in Hr. discriminate.
    + rewrite (connect_no_transport w cause Hc Ht) in Hr. discriminate.
  - intros Hc. unfold isConnected in Hc. unfold connect. unfold_async.
    rewrite Hc. reflexivity.
Qed.

(** Unfolds a method that starts with [ensureConnected] on a connected
    client, down to the tests it makes. *)
Ltac run_connected Hw :=
  unfold listTools, callTool, listResources, readResource, listPrompts, getPrompt;
  rewrite (guarded_connected _ _ Hw); unfold_async.

(** X4. When the SDK call behind a typed operation throws on a connected
    client, the operation throws that very error, unwrapped, and the client
    still reports connected. *)
Theorem sdk_failure_propagates w e s' :
  isConnected w = true ->
  (sdk_listTools (client (self w)) = (Threw e, s') ->
   fst (listTools w) = Threw e /\ isConnected (snd (listTools w)) = true) /\
  (forall name args,
     sdk_callTool name args (client (self w)) = (Threw e, s') ->
     fst (callTool name args w) = Threw e /\
     isConnected (snd (callTool name args w)) = true) /\
  (sdk_listResources (client (self w)) = (Threw e, s') ->
   fst (listResources w) = Threw e /\ isConnected (snd (listResources w)) = true) /\
  (forall uri,
     sdk_readResource uri (client (self w)) = (Threw e, s') ->
     fst (readResource uri w) = Threw e /\
     isConnected (snd (readResource uri w)) = true) /\
  (sdk_listPrompts (client (self w)) = (Threw e, s') ->
   fst (listPrompts w) = Threw e /\ isConnected (snd (listPrompts w)) = true) /\
  (forall name args,
     sdk_getPrompt name args (client (self w)) = (Threw e, s') ->
     fst (getPrompt name args w) = Threw e /\
     isConnected (snd (getPrompt name args w)) = true).
Proof.
  intros Hw. repeat apply conj; intros; run_connected Hw; cbn;
    try destruct (truthy_bool _); cbn;
    match goal with Hsdk : _ = (Threw e, s') |- _ => rewrite Hsdk end;
    (split; [reflexivity | exact Hw]).
Qed.

(** X5. On a connected client each typed operation makes exactly one SDK
    call, the one of its name with the caller's arguments as given, whatever
    the SDK answers and whether the operation then returns or throws. *)
Theorem one_sdk_call_per_operation w :
  isConnected w = true ->
  sdk_calls (snd (listTools w)) = (sdk_calls w ++ [Call_listTools])%list /\
  (forall name args,
     sdk_calls (snd (callTool name args w)) =
     (sdk_calls w ++ [Call_callTool name args])%list) /\
  sdk_calls (snd (listResources w)) = (sdk_calls w ++ [Call_listResources])%list /\
  (forall uri,
     sdk_calls (snd (readResource uri w)) =
     (sdk_calls w ++ [Call_readResource uri])%list) /\
  sdk_calls (snd (listPrompts w)) = (sdk_calls w ++ [Call_listPrompts])%list /\
  (forall name args,
     sdk_calls (snd (getPrompt name args w)) =
     (sdk_calls w ++ [Call_getPrompt name args])%list).
Proof.
  intros Hw. repeat apply conj; intros; run_connected Hw; crunch; reflexivity.
Qed.

(** What a method other than [connect] and [disconnect] does to the world:
    it appends to the trace and the console and moves the SDK object. *)
Lemma operation_frame (m : Method) w :
  m <> M_connect -> m <> M_disconnect ->
  exists s calls lines,
    invoke m w =
      {| self := set_client s (self w);
         sdk_calls := sdk_calls w ++ calls;
         console := console w ++ lines |}.
Proof.
  intros Hm1 Hm2.
  assert (Hw0 : w = {| self := set_client (client (self w)) (self w);
                       sdk_calls := sdk_calls w ++ [];
                       console := console w ++ [] |}).
  { destruct w as [[cl tr cf cn ty] calls out]. cbn. rewrite !app_nil_r. reflexivity. }
  destruct (isConnected w) eqn:Hw.
  - destruct m; try congruence; cbn [invoke]; run_connected Hw; crunch;
      first [ eexists _, [_], []; cbn; rewrite app_nil_r; reflexivity
            | eexists _, [_], [_]; cbn; reflexivity ].
  - exists (client (self w)), [], [].
    destruct m; try congruence; cbn [invoke];
      unfold listTools, callTool, listResources, readResource, listPrompts, getPrompt;
      rewrite (guarded_disconnected _ _ Hw); exact Hw0.
Qed.

(** X6. The six typed operations never touch the wrapper's own fields: the
    connection flag, the config, the transport and the transport type are
    after the call what they were before, connected or not, whether the call
    returns or throws. *)
Theorem operations_keep_fields (m : Method) w :
  m <> M_connect -> m <> M_disconnect ->
  isConnected (invoke m w) = isConnected w /\
  getTransportType (invoke m w) = getTransportType w /\
  config (self (invoke m w)) = config (self w) /\
  transport (self (invoke m w)) = transport (self w).
Proof.
  intros Hm1 Hm2.
  destruct (operation_frame m w Hm1 Hm2) as (s & calls & lines & ->).
  repeat split.
Qed.

Ltac unfold_methods :=
  unfold invoke, connect, disconnect, listTools, callTool, listResources,
    readResource, listPrompts, getPrompt, ensureConnected, isConnected in *.

(** X7. The [debug] option only decides what is written to the console:
    with it set to anything, [connect], [disconnect] and [callTool] return or
    throw the same, and every method makes the same SDK calls and leaves the
    same connection flag, transport and SDK object. *)
Theorem debug_only_writes_console (d : Property bool) w :
  fst (connect (set_debug d w)) = fst (connect w) /\
  fst (disconnect (set_debug d w)) = fst (disconnect w) /\
  (forall name args,
     fst (callTool name args (set_debug d w)) = fst (callTool name args w)) /\
  forall m : Method,
    sdk_calls (invoke m (set_debug d w)) = sdk_calls (invoke m w) /\
    client (self (invoke m (set_debug d w))) = client (self (invoke m w)) /\
    isConnected (invoke m (set_debug d w)) = isConnected (invoke m w) /\
    transport (self (invoke m (set_debug d w))) = transport (self (invoke m w)).
Proof.
  destruct w as [[cl tr cf cn ty] calls out].
  repeat apply conj; intros; try destruct m;
    unfold_methods; unfold set_debug, url_argument; unfold_async; cbn;
    destruct cn; cbn; try destruct ty; cbn; crunch;
    unfold set_client, set_transport, set_connected; cbn;
    repeat split; congruence.
Qed.

(** X8. With [debug] off no method writes to the console. *)
Theorem quiet_without_debug (m : Method) w :
  truthy_bool (MCPClientConfig.debug (config (self w))) = false ->
  console (invoke m w) = console w.
Proof.
  intros Hd. destruct w as [[cl tr cf cn ty] calls out]. cbn in Hd.
  destruct m; unfold_methods; unfold_async; cbn;
    destruct cn; cbn; try destruct ty; cbn; crunch; try congruence; reflexivity.
Qed.

(** Runs a method on a world given by its fields, down to the tests. *)
Ltac run_method m :=
  destruct m; unfold_methods; unfold planned_transport, url_argument in *;
  unfold_async; cbn;
  match goal with
  | cn : bool, ty : TransportType |- _ => destruct cn; cbn; try destruct ty; cbn
  end;
  crunch; unfold set_client, set_transport, set_connected; cbn.

(** No method changes the config or the transport type. *)
Lemma invoke_setup (m : Method) w :
  config (self (invoke m w)) = config (self w) /\
  transportType (self (invoke m w)) = transportType (self w).
Proof.
  destruct w as [[cl tr cf cn ty] calls out].
  run_method m; split; reflexivity.
Qed.

Lemma planned_transport_setup (c c' : MCPClient S) :
  config c' = config c -> transportType c' = transportType c ->
  planned_transport c' = planned_transport c.
Proof. unfold planned_transport. intros -> ->. reflexivity. Qed.

(** The transport field is only ever given the planned transport. *)
Lemma invoke_transport (m : Method) w :
  transport (self (invoke m w)) = transport (self w) \/
  exists t, planned_transport (self w) = Returned t /\
            transport (self (invoke m w)) = Some t.
Proof.
  destruct w as [[cl tr cf cn ty] calls out].
  run_method m;
    first [ left; reflexivity
          | right; eexists; split; [|reflexivity]; congruence ].
Qed.

(** The flag is only raised with a transport in place. *)
Lemma invoke_connected (m : Method) w :
  connected (self (invoke m w)) = true ->
  (connected (self w) = true /\
   transport (self (invoke m w)) = transport (self w)) \/
  is_Some (transport (self (invoke m w))).
Proof.
  destruct w as [[cl tr cf cn ty] calls out].
  run_method m; intros Hc; try discriminate;
    first [ left; split; reflexivity | right; eexists; reflexivity ].
Qed.

(** What a method adds to the trace of SDK calls. *)
Lemma invoke_calls (m : Method) w :
  exists calls,
    sdk_calls (invoke m w) = (sdk_calls w ++ calls)%list /\
    (forall t, In (Call_connect t) calls -> planned_transport (self w) = Returned t) /\
    (connected (self w) = false ->
     (calls = [] /\ connected (self (invoke m w)) = false) \/
     exists t rest, calls = Call_connect t :: rest).
Proof.
  destruct w as [[cl tr cf cn ty] calls out].
  run_method m;
    first [ exists []; split; [symmetry; apply app_nil_r|]
          | eexists [_]; split; [reflexivity|]
          | eexists [_; _]; split; [rewrite <- app_assoc; reflexivity|] ];
    (split;
     [ intros t Hin; cbn in Hin;
       repeat match goal with
              | Hor : _ \/ _ |- _ => destruct Hor
              | Hf : False |- _ => destruct Hf
              end;
       congruence
     | intros Hc; try discriminate;
       first [ left; split; reflexivity
             | right; eexists _, _; reflexivity ] ]).
Qed.

Lemma planned_transport_kind (c : MCPClient S) t :
  planned_transport c = Returned t -> transport_kind t = transportType c.
Proof.
  unfold planned_transport. destruct (transportType c).
  - intros [= <-]. reflexivity.
  - destruct (new_URL _); [intros [= <-]; reflexivity | discriminate].
Qed.

(** What the constructor leaves in the object it builds. *)
Lemma constructor_fields (cfg : MCPClientConfig.t) (c : MCPClient S) :
  constructor cfg = Returned c ->
  connected c = false /\
  transport c = None /\
  MCPClientConfig.command (config c) = MCPClientConfig.command cfg /\
  MCPClientConfig.args (config c) = MCPClientConfig.args cfg /\
  MCPClientConfig.env (config c) = MCPClientConfig.env cfg /\
  MCPClientConfig.sseUrl (config c) = MCPClientConfig.sseUrl cfg /\
  MCPClientConfig.timeout (config c) =
    spread_over 30000%Z (MCPClientConfig.timeout cfg) /\
  MCPClientConfig.debug (config c) =
    spread_over false (MCPClientConfig.debug cfg).
Proof.
  unfold constructor.
  destruct (truthy_string (MCPClientConfig.sseUrl cfg));
    [|destruct (truthy_string (MCPClientConfig.command cfg))];
    intros [= <-]; cbn; repeat split.
Qed.

(** The transport type of a built object against its own config. *)
Lemma constructor_consistent (cfg : MCPClientConfig.t) (c : MCPClient S) :
  constructor cfg = Returned c ->
  match transportType c with
  | sse => provided (MCPClientConfig.sseUrl (config c))
  | stdio =>
      provided (MCPClientConfig.command (config c)) /\
      ~ provided (MCPClientConfig.sseUrl (config c))
  end.
Proof.
  unfold constructor.
  pose proof (truthy_string_provided (MCPClientConfig.sseUrl cfg)) as Hs.
  pose proof (truthy_string_provided (MCPClientConfig.command cfg)) as Hc.
  destruct (truthy_string (MCPClientConfig.sseUrl cfg));
    [|destruct (truthy_string (MCPClientConfig.command cfg))];
    intros [= <-]; cbn.
  - apply Hs. reflexivity.
  - split; [apply Hc; reflexivity|]. intros Hp. apply Hs in Hp. discriminate.
Qed.

Lemma reachable_consistent w :
  reachable w ->
  match transportType (self w) with
  | sse => provided (MCPClientConfig.sseUrl (config (self w)))
  | stdio =>
      provided (MCPClientConfig.command (config (self w))) /\
      ~ provided (MCPClientConfig.sseUrl (config (self w)))
  end.
Proof.
  induction 1 as [cfg c Hc | m w Hw IH | s w Hw IH].
  - cbn. apply (constructor_consistent cfg c Hc).
  - destruct (invoke_setup m w) as [-> ->]. exact IH.
  - exact IH.
Qed.


(** X10. In every reachable world the transport the object holds, if any,
    is the one planned from its config (so of the kind of its transport
    type), and a client that reports connected holds a transport. *)
Theorem reachable_transport w :
  reachable w ->
  (forall t, transport (self w) = Some t ->
             planned_transport (self w) = Returned t /\
             transport_kind t = getTransportType w) /\
  (isConnected w = true -> is_Some (transport (self w))).
Proof.
  unfold isConnected, getTransportType.
  induction 1 as [cfg c Hc | m w Hw [IHt IHc] | s w Hw IH].
  - destruct (constructor_fields cfg c Hc) as (Hcn & Htr & _). cbn.
    rewrite Hcn, Htr. split; [discriminate | discriminate].
  - destruct (invoke_setup m w) as [Hcfg Hty].
    pose proof (planned_transport_setup _ _ Hcfg Hty) as Hp.
    split.
    + intros t Ht. rewrite Hp, Hty.
      destruct (invoke_transport m w) as [Hsame | (t' & Hpl & Hnew)].
      * apply IHt. congruence.
      * assert (t' = t) as -> by congruence.
        split; [exact Hpl | apply planned_transport_kind; exact Hpl].
    + intros Hcn. destruct (invoke_connected m w Hcn) as [[Hold Hsame] | Hsome].
      * rewrite Hsame. apply IHc, Hold.
      * exact Hsome.
  - exact IH.
Qed.

(** X11. The first call a client ever makes on the SDK object is
    [connect(transport)]: no request is sent before a connection attempt. *)
Theorem reachable_first_call w :
  reachable w ->
  sdk_calls w = [] \/ exists t rest, sdk_calls w = Call_connect t :: rest.
Proof.
  intros Hr.
  assert (Hinv : (sdk_calls w = [] /\ connected (self w) = false) \/
                 exists t rest, sdk_calls w = Call_connect t :: rest).
  { induction Hr as [cfg c Hc | m w Hw IH | s w Hw IH].
    - left. split; [reflexivity|]. apply (constructor_fields cfg c Hc).
    - destruct (invoke_calls m w) as (calls & -> & _ & Hstart).
      destruct IH as [[-> Hcn] | (t & rest & ->)].
      + destruct (Hstart Hcn) as [[-> Hcn'] | (t & rest & ->)].
        * left. split; [reflexivity | exact Hcn'].
        * right. eexists _, _. reflexivity.
      + right. eexists _, _. reflexivity.
    - exact IH. }
  destruct Hinv as [[Hnil _] | Hcons]; [left; exact Hnil | right; exact Hcons].
Qed.



(** X14. [createMCPClient] returns only a connected client, which is the
    object it built, with a transport and the transport type the config
    resolves to.  When it throws, it is either the configuration error, with
    nothing done at all, or the connection error, the object built being
    left disconnected. *)
Theorem createMCPClient_outcome (cfg : MCPClientConfig.t) w :
  match createMCPClient cfg w with
  | (Returned c, w') =>
      self w' = c /\ connected c = true /\ is_Some (transport c) /\
      resolved (constructor cfg) = Returned (transportType c)
  | (Threw e, w') =>
      (e = ConfigurationError /\ w' = w /\
       resolved (constructor cfg) = Threw ConfigurationError) \/
      (exists cause, e = ConnectionError cause /\ isConnected w' = false)
  end.
Proof.
  unfold createMCPClient.
  destruct (constructor cfg) as [c|e0] eqn:Hcfg.
  - destruct (constructor_fields cfg c Hcfg) as (Hcn & _).
    set (w0 := {| self := c; sdk_calls := sdk_calls w; console := console w |}).
    assert (Hw0 : isConnected w0 = false) by exact Hcn.
    unfold mbind, Async_bind, read_this.
    destruct (planned_transport (self w0)) as [t|cause] eqn:Ht.
    + destruct (sdk_connect t (client (self w0))) as [[[]|cause] s'] eqn:Hs.
      * destruct (connect_ok w0 t s' Hw0 Ht Hs) as (w' & -> & Hself & _).
        rewrite Hself. cbn. repeat split. eexists; reflexivity.
      * rewrite (connect_sdk_fails w0 t cause s' Hw0 Ht Hs).
        right. exists cause. split; reflexivity.
    + rewrite (connect_no_transport w0 cause Hw0 Ht).
      right. exists cause. split; [reflexivity | exact Hw0].
  - left. unfold constructor in Hcfg.
    destruct (truthy_string (MCPClientConfig.sseUrl cfg));
      [discriminate|destruct (truthy_string (MCPClientConfig.command cfg))];
      [discriminate|]. injection Hcfg as <-. repeat split.
Qed.

(** X15. On a connected client, [listResources] returns one descriptor per
    resource of the server's response, in order, with the server's uri,
    name, description and MIME type. *)
Theorem listResources_preserves_descriptors w response s' :
  isConnected w = true ->
  sdk_listResources (client (self w)) = (Returned response, s') ->
  exists resources w',
    listResources w = (Returned resources, w') /\
    length resources = length (Sdk.resources response) /\
    forall (i : nat) (sent : Sdk.Resource),
      Sdk.resources response !! i = Some sent ->
      exists r : MCPResource.t,
        resources !! i = Some r /\
        MCPResource.uri r = Sdk.resource_uri sent /\
        MCPResource.name r = Sdk.resource_name sent /\
        MCPResource.description r = Sdk.resource_description sent /\
        MCPResource.mimeType r = Sdk.resource_mimeType sent.
Proof.
  intros Hw Hsdk. run_connected Hw. cbn. rewrite Hsdk. cbn.
  eexists. eexists. split; [reflexivity|]. split; [apply length_map|].
  intros i sent Hi. eexists. split.
  - change (map ?f ?l) with (f <$> l). rewrite list_lookup_fmap, Hi. reflexivity.
  - cbn. repeat split.
Qed.

(** X16. On a connected client, [listPrompts] returns one descriptor per
    prompt of the server's response, in order, with the server's name,
    description and argument list. *)
Theorem listPrompts_preserves_descriptors w response s' :
  isConnected w = true ->
  sdk_listPrompts (client (self w)) = (Returned response, s') ->
  exists prompts w',
    listPrompts w = (Returned prompts, w') /\
    length prompts = length (Sdk.prompts response) /\
    forall (i : nat) (sent : Sdk.Prompt),
      Sdk.prompts response !! i = Some sent ->
      exists p : MCPPrompt.t,
        prompts !! i = Some p /\
        MCPPrompt.name p = Sdk.prompt_name sent /\
        MCPPrompt.description p = Sdk.prompt_description sent /\
        MCPPrompt.arguments p = Sdk.prompt_arguments sent.
Proof.
  intros Hw Hsdk. run_connected Hw. cbn. rewrite Hsdk. cbn.
  eexists. eexists. split; [reflexivity|]. split; [apply length_map|].
  intros i sent Hi. eexists. split.
  - change (map ?f ?l) with (f <$> l). rewrite list_lookup_fmap, Hi. reflexivity.
  - cbn. repeat split.
Qed.

(** X17. [readResource] decides on the first entry of the returned contents
    alone: whatever entries follow, it returns the first entry's text when
    that entry has the [text] key, the empty text included, and throws the
    unsupported-content error when it has not. *)
Theorem readResource_first_entry w uri first others s' :
  isConnected w = true ->
  sdk_readResource uri (client (self w)) =
    (Returned {| Sdk.contents := first :: others |}, s') ->
  fst (readResource uri w) =
    match Sdk.contents_text first with
    | Some text => Returned text
    | None => Threw UnsupportedContentError
    end.
Proof.
  intros Hw Hsdk. run_connected Hw. cbn. rewrite Hsdk. cbn.
  destruct (Sdk.contents_text first); reflexivity.
Qed.

(** X18. A [disconnect()] whose [close()] succeeds makes that one SDK call,
    clears the flag and keeps everything else, the transport included; the
    client is then where [connect()] starts afresh. *)
Theorem disconnect_success w s' :
  isConnected w = true ->
  sdk_close (client (self w)) = (Returned tt, s') ->
  exists w',
    disconnect w = (Returned tt, w') /\
    isConnected w' = false /\
    sdk_calls w' = (sdk_calls w ++ [Call_close])%list /\
    transport (self w') = transport (self w) /\
    config (self w') = config (self w) /\
    getTransportType w' = getTransportType w /\
    fst (connect w') <> Threw AlreadyConnectedError.
Proof.
  unfold isConnected, getTransportType. intros Hw Hs.
  assert (Hd : exists w',
             disconnect w = (Returned tt, w') /\
             self w' = set_connected false (set_client s' (self w)) /\
             sdk_calls w' = (sdk_calls w ++ [Call_close])%list).
  { unfold disconnect. unfold_async. rewrite Hw. cbn. rewrite Hs. cbn.
    destruct (truthy_bool _); cbn; eexists; repeat split. }
  destruct Hd as (w' & Hd & Hself & Hcalls).
  exists w'. rewrite Hself. cbn. repeat split; try assumption.
  intros Hr.
  assert (Hcn : isConnected w' = false) by (unfold isConnected; rewrite Hself; reflexivity).
  destruct (planned_transport (self w')) as [t|cause] eqn:Ht.
  - destruct (sdk_connect t (client (self w'))) as [[[]|cause] s''] eqn:Hs'.
    + destruct (connect_ok w' t s'' Hcn Ht Hs') as (w'' & Hw'' & _).
      rewrite Hw'' in Hr. discriminate.
    + rewrite (connect_sdk_fails w' t cause s'' Hcn Ht Hs') in Hr. discriminate.
  - rewrite (connect_no_transport w' cause Hcn Ht) in Hr. discriminate.
Qed.

End LifecycleProperties.

(** ** The further properties on concrete sessions *)

Lemma session_live_reachable : reachable Session.live.
Proof.
  apply reach_invoke, reach_sdk.
  apply (reach_new (Mock.with_command "node" Mock.no_config)). reflexivity.
Qed.

Example live_session :
  isConnected Session.live = true /\
  sdk_calls Session.live =
    [Call_connect Session.node_transport; Call_getServerCapabilities] /\
  transport (self Session.live) = Some Session.node_transport.
Proof. repeat split. Qed.

Lemma connect_success_witness :
  let w := Mock.world (Scenario.full []) false in
  isConnected w = false /\
  exists w',
    connect w =
      (Returned {| ServerCapabilities.tools := Some true;
                   ServerCapabilities.resources := Some true;
                   ServerCapabilities.prompts := Some false |}, w') /\
    isConnected w' = true /\
    transport (self w') = Some Session.node_transport /\
    getTransportType w' = stdio /\
    sdk_calls w' = [Call_connect Session.node_transport; Call_getServerCapabilities].
Proof.
  split; [reflexivity|].
  exact (connect_success (Mock.world (Scenario.full []) false)
           Session.node_transport (Scenario.full []) eq_refl eq_refl eq_refl).
Defined.

Lemma connect_rejected_url_witness :
  isConnected Session.bad_address = false /\
  connect Session.bad_address =
    (Threw (ConnectionError (Mock.TypeError "Invalid URL")), Session.bad_address).
Proof.
  split; [reflexivity|].
  apply (connect_rejected_url Session.bad_address (Mock.TypeError "Invalid URL"));
    reflexivity.
Defined.

Lemma sdk_failure_propagates_witness :
  let w := Mock.world Session.failing true in
  isConnected w = true /\
  fst (listTools w) = Threw Scenario.boom /\
  isConnected (snd (listTools w)) = true.
Proof.
  split; [reflexivity|].
  apply (sdk_failure_propagates (Mock.world Session.failing true)
           Scenario.boom Session.failing); reflexivity.
Defined.

Lemma one_sdk_call_per_operation_witness :
  let w := Mock.world Session.failing true in
  isConnected w = true /\
  sdk_calls (snd (callTool "echo" [("message", JString "hi")] w)) =
    [Call_callTool "echo" [("message", JString "hi")]].
Proof.
  split; [reflexivity|].
  apply (one_sdk_call_per_operation (Mock.world Session.failing true)).
  reflexivity.
Defined.

Lemma operations_keep_fields_witness :
  let m := M_readResource "file:///logo.png" in
  let w := Session.live in
  isConnected (invoke m w) = isConnected w /\
  getTransportType (invoke m w) = getTransportType w /\
  config (self (invoke m w)) = config (self w) /\
  transport (self (invoke m w)) = transport (self w).
Proof.
  apply (operations_keep_fields (M_readResource "file:///logo.png") Session.live);
    discriminate.
Defined.

Lemma quiet_without_debug_witness :
  let w := Session.live in
  truthy_bool (MCPClientConfig.debug (config (self w))) = false /\
  console (invoke (M_callTool "echo" []) w) = console w.
Proof.
  split; [reflexivity|].
  apply (quiet_without_debug (M_callTool "echo" []) Session.live). reflexivity.
Defined.


Lemma reachable_transport_witness :
  isConnected Session.live = true /\
  is_Some (transport (self Session.live)).
Proof.
  split; [reflexivity|].
  apply (reachable_transport Session.live session_live_reachable). reflexivity.
Defined.

Lemma reachable_first_call_witness :
  sdk_calls Session.live = [] \/
  exists t rest, sdk_calls Session.live = Call_connect t :: rest.
Proof.
  apply (reachable_first_call Session.live session_live_reachable).
Defined.



Lemma listResources_preserves_descriptors_witness :
  let w := Mock.world Session.catalogue true in
  isConnected w = true /\
  exists resources w',
    listResources w = (Returned resources, w') /\
    length resources = 1 /\
    forall (i : nat) (sent : Sdk.Resource),
      [Session.notes] !! i = Some sent ->
      exists r : MCPResource.t,
        resources !! i = Some r /\
        MCPResource.uri r = Sdk.resource_uri sent /\
        MCPResource.name r = Sdk.resource_name sent /\
        MCPResource.description r = Sdk.resource_description sent /\
        MCPResource.mimeType r = Sdk.resource_mimeType sent.
Proof.
  split; [reflexivity|].
  eapply (listResources_preserves_descriptors (Mock.world Session.catalogue true)
            {| Sdk.resources := [Session.notes] |});
    reflexivity.
Defined.

Lemma listPrompts_preserves_descriptors_witness :
  let w := Mock.world Session.catalogue true in
  isConnected w = true /\
  exists prompts w',
    listPrompts w = (Returned prompts, w') /\
    length prompts = 1 /\
    forall (i : nat) (sent : Sdk.Prompt),
      [Session.greet] !! i = Some sent ->
      exists p : MCPPrompt.t,
        prompts !! i = Some p /\
        MCPPrompt.name p = Sdk.prompt_name sent /\
        MCPPrompt.description p = Sdk.prompt_description sent /\
        MCPPrompt.arguments p = Sdk.prompt_arguments sent.
Proof.
  split; [reflexivity|].
  eapply (listPrompts_preserves_descriptors (Mock.world Session.catalogue true)
            {| Sdk.prompts := [Session.greet] |});
    reflexivity.
Defined.

Lemma readResource_first_entry_witness :
  let w := Mock.world Session.catalogue true in
  isConnected w = true /\
  fst (readResource "file:///logo.png" w) = Threw UnsupportedContentError.
Proof.
  split; [reflexivity|].
  eapply (readResource_first_entry (Mock.world Session.catalogue true)
            "file:///logo.png" Scenario.blob_resource [Scenario.text_resource]);
    reflexivity.
Defined.

Lemma disconnect_success_witness :
  isConnected Session.live = true /\
  exists w',
    disconnect Session.live = (Returned tt, w') /\
    isConnected w' = false /\
    sdk_calls w' =
      [Call_connect Session.node_transport; Call_getServerCapabilities; Call_close] /\
    transport (self w') = Some Session.node_transport /\
    config (self w') = Session.node_config /\
    getTransportType w' = stdio /\
    fst (connect w') <> Threw AlreadyConnectedError.
Proof.
  split; [reflexivity|].
  exact (disconnect_success Session.live (Scenario.full [Scenario.text_resource])
           eq_refl eq_refl).
Defined.
